(** * Reminder lifecycle of the note server (server.py)

    A shallow embedding of the Flask application in [server.py]: the [Note]
    table, the request handlers that change reminder state, the dispatcher
    [send_reminder_email], the start-up sweep [check_missed_reminders], and
    the table of scheduled jobs.

    Conventions of the embedding.
    - Python values (JSON payload values, datetimes, the tuple built in
      [update_note]) are values of [pyval]. JSON floats are left out.
    - A datetime is a number of microseconds on the UTC time line.
    - The [Note] table is a finite map from the primary key (the text of the
      UUID) to the other columns of the row.
    - An object holds whatever value the handler assigned to its attributes.
      [db.session.commit()] binds each attribute to its column: a value the
      column type refuses makes the statement fail, a value it accepts is
      stored as a value of that type, [nullable=False] and the primary key
      are enforced, and the column defaults of the model are applied. After
      the commit the handler reads the attributes back from the row.
    - Handlers are functions of the current time and the state; what they
      raise is an explicit outcome. *)

From stdpp Require Import gmap strings list fin_maps.

Set Warnings "-register-all".
Local Open Scope Z_scope.

(** ** Python values *)

Inductive pyval :=
  | PNone
  | PBool (b : bool)
  | PInt (z : Z)
  | PStr (s : string)
  | PDatetime (t : Z)
  | PTuple (items : list pyval)
  | PList (items : list pyval)
  | PDict (items : list (string * pyval)).

(** Truth value testing, as [if v:] and [a and b] do it. *)
Definition py_truthy (v : pyval) : bool :=
  match v with
  | PNone => false
  | PBool b => b
  | PInt z => negb (z =? 0)
  | PStr s => negb (String.eqb s "")
  | PDatetime _ => true
  | PTuple items => match items with [] => false | _ :: _ => true end
  | PList items => match items with [] => false | _ :: _ => true end
  | PDict items => match items with [] => false | _ :: _ => true end
  end.

(** [column == True] / [column == False] in a query filter: the Boolean
    column holds that truth value ([1 == True] and [0 == False] in Python as
    in SQL); NULL and everything else do not match. *)
Definition col_is (b : bool) (v : pyval) : bool :=
  match v with
  | PBool b' => Bool.eqb b' b
  | PInt z => z =? (if b then 1 else 0)
  | _ => false
  end.

(** [column <= t] and [column > t] on a DateTime column: NULL never
    matches, and only a datetime compares with a datetime. *)
Definition col_le (v : pyval) (t : Z) : bool :=
  match v with
  | PDatetime d => d <=? t
  | _ => false
  end.

Definition col_gt (v : pyval) (t : Z) : bool :=
  match v with
  | PDatetime d => t <? d
  | _ => false
  end.

(** [timedelta(days=n)] in microseconds. *)
Definition timedelta_days (n : Z) : Z := n * 86400 * 1000000.

(** [data.get(key, default)] and [data.get(key)] on the JSON object of a
    request. *)
Definition dict_get (data : gmap string pyval) (key : string) (default : pyval) : pyval :=
  match data !! key with
  | Some v => v
  | None => default
  end.

Definition dict_get_none (data : gmap string pyval) (key : string) : pyval :=
  dict_get data key PNone.

(** ** The data model *)

(** class Note(db.Model), without its primary key [id], which is the key of
    the table. *)
Record Note := mkNote {
  title : pyval;
  content : pyval;
  is_pinned : pyval;
  has_reminder : pyval;
  reminder_datetime : pyval;
  reminder_email : pyval;
  created_at : Z;
  updated_at : Z;
  is_archived : pyval;
  is_trashed : pyval
}.

(** flask_mail.Message(subject=..., recipients=[...], body=...) *)
Record Message := mkMessage {
  subject : string;
  recipients : list pyval;
  body : string
}.

Inductive loglevel := INFO | WARNING | ERROR.

Record LogRecord := mkLog {
  levelname : loglevel;
  message : string
}.

(** A job of the scheduler, as [scheduler.add_job(id=..., func=
    send_reminder_email, trigger='date', run_date=..., args=[...])] describes
    it; [func] and [trigger] are the same in every call. *)
Record Job := mkJob {
  job_id : string;
  run_date : Z;
  args : string
}.

Record World := mkWorld {
  notes : gmap string Note;
  jobs : list Job;
  outbox : list Message;
  log : list LogRecord
}.

Inductive exn :=
  | KeyError (key : string)
  | TypeError
  | ValueError
  | AttributeError
  | IntegrityError
  | StatementError.

(** What a handler that writes does: it commits and returns, aborts with 404
    ([get_or_404]), or raises before anything is committed. *)
Inductive outcome :=
  | Done (W : World)
  | NotFound
  | Raised (e : exn).

(** What a read handler answers. *)
Inductive response :=
  | Ok200 (fields : list (string * pyval))
  | Err404
  | Err500 (e : exn).

Definition set_notes (W : World) (m : gmap string Note) : World :=
  mkWorld m (jobs W) (outbox W) (log W).

Definition set_jobs (W : World) (js : list Job) : World :=
  mkWorld (notes W) js (outbox W) (log W).

Definition logger (r : LogRecord) (W : World) : World :=
  mkWorld (notes W) (jobs W) (outbox W) (log W ++ [r]).

Definition deliver (m : Message) (W : World) : World :=
  mkWorld (notes W) (jobs W) (outbox W ++ [m]) (log W).

(** ** The collaborators the program is linked with

    The standard library, the mail transport and the database engine are not
    part of the repository; the handlers are written against this interface.
    - [fromisoformat s] is [datetime.fromisoformat(s).replace(tzinfo=UTC)],
      [None] when it raises [ValueError];
    - [isoformat t] is [t.isoformat()];
    - [py_str v] is [str(v)], what an f-string puts for [{v}];
    - [mail_send m] is [mail.send(m)]: [None] when the message was accepted,
      [Some text] when it raised an exception [e] with [str(e) = text];
    - [tick t] is the reading of [datetime.utcnow] that follows a reading
      [t]: a clock does not run backwards;
    - [bind_string n v] is what a [db.String(n)] column ([db.Text] for
      [n = None]) holds once [v] is bound to it, and [bind_boolean v] what a
      [db.Boolean] column holds; [None] when the engine refuses [v]. What the
      column types of the model guarantee is all that is assumed of them:
      NULL is stored for None and only for None, a stored value has the type
      of the column, a string that fits is stored as it is, and a Boolean
      column keeps the truth value of what it accepts. *)
Class Runtime := {
  fromisoformat : string → option Z;
  isoformat : Z → string;
  py_str : pyval → string;
  mail_send : Message → option string;
  tick : Z → Z;
  bind_string : option nat → pyval → option pyval;
  bind_boolean : pyval → option pyval;
  tick_le : ∀ t, t ≤ tick t;
  bind_string_typed : ∀ n v w,
    bind_string n v = Some w →
    (v = PNone ∧ w = PNone) ∨ (v ≠ PNone ∧ ∃ s, w = PStr s);
  bind_string_null : ∀ n, bind_string n PNone = Some PNone;
  bind_string_fits : ∀ n s,
    match n with Some k => (String.length s ≤ k)%nat | None => True end →
    bind_string n (PStr s) = Some (PStr s);
  bind_boolean_typed : ∀ v w,
    bind_boolean v = Some w →
    (v = PNone ∧ w = PNone) ∨ (v ≠ PNone ∧ w = PBool (py_truthy v));
  bind_boolean_null : bind_boolean PNone = Some PNone;
  bind_boolean_bool : ∀ b, bind_boolean (PBool b) = Some (PBool b)
}.

(** The [db.DateTime] column (line 48) on the engine config.py selects by
    default, sqlite: the type takes a datetime or None and raises for any
    other value. *)
Definition bind_datetime (v : pyval) : option pyval :=
  match v with
  | PNone | PDatetime _ => Some v
  | _ => None
  end.

(** [default=False]: on INSERT an attribute that is None is left out of the
    statement and the column default is taken. *)
Definition default_false (v : pyval) : pyval :=
  match v with
  | PNone => PBool false
  | _ => v
  end.

(** ** The scheduler *)

(** f'reminder_{note.id}' *)
Definition job_key (note_id : string) : string := "reminder_" +:+ note_id.

(** Modelled from the spec: the scheduler behind [scheduler.add_job]
    (flask_apscheduler) is missing from the source. [cancel key] removes the
    timer registered under [key], if any. *)
Definition cancel (key : string) (js : list Job) : list Job :=
  filter (λ j, job_id j ≠ key) js.

(** Modelled from the spec: the scheduler behind [scheduler.add_job] is
    missing from the source. [schedule(key, dueAt, payload)] registers a
    one-shot timer; a timer already registered under [key] is cancelled and
    the new one takes its place. *)
Definition add_job (key : string) (due : Z) (payload : string)
    (js : list Job) : list Job :=
  cancel key js ++ [mkJob key due payload].

(** Modelled from the spec: the scheduler's clock is missing from the
    source. A timer is due once its due time has been reached. *)
Definition job_due (now : Z) (j : Job) : bool := run_date j <=? now.

Section Server.
Context {rt : Runtime}.

(** ** The dispatcher *)

Definition clear_reminder (now : Z) (note : Note) : Note :=
  {| title := title note;
     content := content note;
     is_pinned := is_pinned note;
     has_reminder := PBool false;
     reminder_datetime := PNone;
     reminder_email := reminder_email note;
     created_at := created_at note;
     updated_at := now;
     is_archived := is_archived note;
     is_trashed := is_trashed note |}.

Definition reminder_message (note : Note) : Message :=
  {| subject := "Reminder: " +:+ py_str (title note);
     recipients := [reminder_email note];
     body := py_str (content note) |}.

Definition sent_info (note_id : string) (note : Note) : LogRecord :=
  mkLog INFO
    ("Reminder email sent for note " +:+ note_id +:+ " to "
       +:+ py_str (reminder_email note)).

Definition send_failure_error (note_id text : string) : LogRecord :=
  mkLog ERROR
    ("Failed to send reminder email for note " +:+ note_id +:+ ": " +:+ text).

Definition invalid_note_warning (note_id : string) : LogRecord :=
  mkLog WARNING
    ("Attempted to send reminder for non-existent or invalid note: " +:+ note_id).

(** def send_reminder_email(note_id). The [try] block sends, logs and
    clears; [except Exception] logs the failure and returns. *)
Definition send_reminder_email (now : Z) (note_id : string) (W : World) : World :=
  match notes W !! note_id with
  | Some note =>
      if py_truthy (has_reminder note) && py_truthy (reminder_email note) then
        let msg := reminder_message note in
        match mail_send msg with
        | None =>
            let W1 := logger (sent_info note_id note) (deliver msg W) in
            set_notes W1 (<[note_id := clear_reminder now note]> (notes W1))
        | Some text => logger (send_failure_error note_id text) W
        end
      else logger (invalid_note_warning note_id) W
  | None => logger (invalid_note_warning note_id) W
  end.

(** [send_reminder_email] seen from the row it is called for: the message it
    hands to the transport and gets accepted, if any, and the row it leaves. *)
Definition to_send (note : Note) : option Message :=
  if py_truthy (has_reminder note) && py_truthy (reminder_email note) then
    match mail_send (reminder_message note) with
    | None => Some (reminder_message note)
    | Some _ => None
    end
  else None.

Definition dispatched (now : Z) (note : Note) : Note :=
  match to_send note with
  | Some _ => clear_reminder now note
  | None => note
  end.

(** Modelled from the spec: the scheduler's [fireOnce] is missing from the
    source. The timers that are due are removed from the table and the
    callback, [send_reminder_email], is invoked once for each with its
    payload. *)
Definition run_pending (now : Z) (W : World) : World :=
  foldl (λ W' j, send_reminder_email now (args j) W')
    (set_jobs W (filter (λ j, job_due now j = false) (jobs W)))
    (filter (λ j, job_due now j = true) (jobs W)).

(** ** Queries *)

(** Note.query.filter(...).all(): the rows, with their keys, that match. *)
Definition query_all (p : Note → bool) (W : World) : list (string * Note) :=
  filter (λ row, p row.2 = true) (map_to_list (notes W)).

(** The filter of [check_missed_reminders]. *)
Definition missed (current_time : Z) (note : Note) : bool :=
  col_is true (has_reminder note)
  && col_le (reminder_datetime note) current_time
  && col_gt (reminder_datetime note) (current_time - timedelta_days 1).

Definition missed_info (note_id : string) : LogRecord :=
  mkLog INFO ("Sent missed reminder for note " +:+ note_id).

(** The body of the loop of [check_missed_reminders]. *)
Definition sweep_step (current_time : Z) (W : World) (row : string * Note) : World :=
  logger (missed_info row.1) (send_reminder_email current_time row.1 W).

(** def check_missed_reminders() *)
Definition check_missed_reminders (current_time : Z) (W : World) : World :=
  foldl (sweep_step current_time) W (query_all (missed current_time) W).

(** ** Request handlers *)

(** The value both write handlers compute for the reminder time:
    [datetime.fromisoformat(data['reminder_datetime']).replace(tzinfo=UTC)
     if data.get('reminder_datetime') else None]. *)
Definition parse_reminder_datetime (data : gmap string pyval) : exn + pyval :=
  if py_truthy (dict_get_none data "reminder_datetime") then
    match data !! "reminder_datetime" with
    | Some (PStr s) =>
        match fromisoformat s with
        | Some t => inr (PDatetime t)
        | None => inl ValueError
        end
    | _ => inl TypeError
    end
  else inr PNone.

(** [nullable=False] on [title] and [content]. *)
Definition not_null (v : pyval) : bool :=
  match v with
  | PNone => false
  | _ => true
  end.

Definition nullable_ok (note : Note) : bool :=
  not_null (title note) && not_null (content note).

(** The flush of [db.session.commit()] for one object: every attribute is
    bound to its column (lines 44 to 53); the statement fails when a column
    refuses its value, and the table refuses a row whose [title] or [content]
    is NULL. The result is the row, which is what the attributes hold when
    they are read after the commit. *)
Definition bind_row (note : Note) : option Note :=
  t ← bind_string (Some 100%nat) (title note);
  c ← bind_string None (content note);
  pinned ← bind_boolean (is_pinned note);
  reminder ← bind_boolean (has_reminder note);
  dt ← bind_datetime (reminder_datetime note);
  email ← bind_string (Some 120%nat) (reminder_email note);
  arch ← bind_boolean (is_archived note);
  trash ← bind_boolean (is_trashed note);
  Some {| title := t;
          content := c;
          is_pinned := pinned;
          has_reminder := reminder;
          reminder_datetime := dt;
          reminder_email := email;
          created_at := created_at note;
          updated_at := updated_at note;
          is_archived := arch;
          is_trashed := trash |}.

Definition flush (note : Note) : exn + Note :=
  match bind_row note with
  | None => inl StatementError
  | Some row => if nullable_ok row then inr row else inl IntegrityError
  end.

(** The scheduling step shared by [create_note] and [update_note], on the
    row just committed:
    [if note.has_reminder and note.reminder_datetime: scheduler.add_job(...)].
    A [reminder_datetime] read from its column is a datetime or None. *)
Definition schedule_if_set (note_id : string) (note : Note) (W : World) : World :=
  if py_truthy (has_reminder note) && py_truthy (reminder_datetime note) then
    match reminder_datetime note with
    | PDatetime d => set_jobs W (add_job (job_key note_id) d note_id (jobs W))
    | _ => W
    end
  else W.

(** The object [Note(...)] of lines 113 to 122 as the INSERT takes it: the
    attributes from the payload, [default=False] for a flag that is None,
    and [created_at] and [updated_at] from their two defaults, two successive
    readings of the clock (lines 50 and 51). *)
Definition new_note (now : Z) (data : gmap string pyval) (t c dt : pyval) : Note :=
  {| title := t;
     content := c;
     is_pinned := default_false (dict_get data "is_pinned" (PBool false));
     has_reminder := default_false (dict_get data "has_reminder" (PBool false));
     reminder_datetime := dt;
     reminder_email := dict_get_none data "reminder_email";
     created_at := now;
     updated_at := tick now;
     is_archived := default_false (dict_get data "is_archived" (PBool false));
     is_trashed := default_false (dict_get data "is_trashed" (PBool false)) |}.

(** POST /notes; [new_id] is the value [uuid.uuid4] gives the row. *)
Definition create_note (now : Z) (new_id : string) (data : gmap string pyval)
    (W : World) : outcome :=
  match data !! "title" with
  | None => Raised (KeyError "title")
  | Some t =>
    match data !! "content" with
    | None => Raised (KeyError "content")
    | Some c =>
      match parse_reminder_datetime data with
      | inl e => Raised e
      | inr dt =>
        match flush (new_note now data t c dt) with
        | inl e => Raised e
        | inr row =>
          match notes W !! new_id with
          | Some _ => Raised IntegrityError
          | None =>
            Done (schedule_if_set new_id row
                    (set_notes W (<[new_id := row]> (notes W))))
          end
        end
      end
    end
  end.

(** Lines 158 to 165 of [update_note]: the attributes of the object once
    they are assigned, with the [updated_at] its UPDATE would stamp. Line 164
    ends in a comma: its right-hand side is the one-element tuple of the
    parsed value [dt]. *)
Definition assign (now : Z) (data : gmap string pyval) (dt : pyval)
    (note : Note) : Note :=
  {| title := dict_get data "title" (title note);
     content := dict_get data "content" (content note);
     is_pinned := dict_get data "is_pinned" (is_pinned note);
     has_reminder := dict_get data "has_reminder" (has_reminder note);
     reminder_datetime := PTuple [dt];
     reminder_email := dict_get data "email" (reminder_email note);
     created_at := created_at note;
     updated_at := now;
     is_archived := dict_get data "is_archived" (is_archived note);
     is_trashed := dict_get data "is_trashed" (is_trashed note) |}.

(** PUT /notes/<note_id>: the commit of line 167 comes before the scheduling
    step, which reads the row back. *)
Definition update_note (now : Z) (note_id : string) (data : gmap string pyval)
    (W : World) : outcome :=
  match notes W !! note_id with
  | None => NotFound
  | Some note =>
    match parse_reminder_datetime data with
    | inl e => Raised e
    | inr dt =>
      match flush (assign now data dt note) with
      | inl e => Raised e
      | inr row =>
        Done (schedule_if_set note_id row
                (set_notes W (<[note_id := row]> (notes W))))
      end
    end
  end.

Definition trashed (now : Z) (note : Note) : Note :=
  {| title := title note;
     content := content note;
     is_pinned := PBool false;
     has_reminder := has_reminder note;
     reminder_datetime := reminder_datetime note;
     reminder_email := reminder_email note;
     created_at := created_at note;
     updated_at := now;
     is_archived := PBool false;
     is_trashed := PBool true |}.

Definition archived (now : Z) (note : Note) : Note :=
  {| title := title note;
     content := content note;
     is_pinned := PBool false;
     has_reminder := has_reminder note;
     reminder_datetime := reminder_datetime note;
     reminder_email := reminder_email note;
     created_at := created_at note;
     updated_at := now;
     is_archived := PBool true;
     is_trashed := PBool false |}.

Definition restored (now : Z) (note : Note) : Note :=
  {| title := title note;
     content := content note;
     is_pinned := is_pinned note;
     has_reminder := has_reminder note;
     reminder_datetime := reminder_datetime note;
     reminder_email := reminder_email note;
     created_at := created_at note;
     updated_at := now;
     is_archived := PBool false;
     is_trashed := PBool false |}.

(** The shape of the three flag handlers: load or 404, assign, commit. *)
Definition modify (f : Note → Note) (note_id : string) (W : World) : outcome :=
  match notes W !! note_id with
  | None => NotFound
  | Some note => Done (set_notes W (<[note_id := f note]> (notes W)))
  end.

(** DELETE /notes/<note_id> *)
Definition delete_note (now : Z) (note_id : string) (W : World) : outcome :=
  modify (trashed now) note_id W.

(** PUT /notes/<note_id>/archive *)
Definition archive_note (now : Z) (note_id : string) (W : World) : outcome :=
  modify (archived now) note_id W.

(** PUT /notes/<note_id>/restore *)
Definition restore_note (now : Z) (note_id : string) (W : World) : outcome :=
  modify (restored now) note_id W.

(** DELETE /notes/<note_id>/permanent-delete *)
Definition permanent_delete_note (note_id : string) (W : World) : outcome :=
  match notes W !! note_id with
  | None => NotFound
  | Some _ => Done (set_notes W (delete note_id (notes W)))
  end.

(** [v.isoformat() if v else None] *)
Definition isoformat_or_none (v : pyval) : exn + pyval :=
  if py_truthy v then
    match v with
    | PDatetime t => inr (PStr (isoformat t))
    | _ => inl AttributeError
    end
  else inr PNone.

(** GET /notes/<note_id> *)
Definition get_single_note (note_id : string) (W : World) : response :=
  match notes W !! note_id with
  | None => Err404
  | Some note =>
    match isoformat_or_none (reminder_datetime note) with
    | inl e => Err500 e
    | inr rd =>
      Ok200 [("id", PStr note_id);
             ("title", title note);
             ("content", content note);
             ("is_pinned", is_pinned note);
             ("has_reminder", has_reminder note);
             ("reminder_datetime", rd);
             ("reminder_email", reminder_email note);
             ("created_at", PStr (isoformat (created_at note)));
             ("updated_at", PStr (isoformat (updated_at note)));
             ("is_archived", is_archived note);
             ("is_trashed", is_trashed note)]
    end
  end.

(** The filter of [get_reminders]:
    [filter_by(has_reminder=True, is_archived=False, is_trashed=False)]. *)
Definition active_reminder (note : Note) : bool :=
  col_is true (has_reminder note)
  && col_is false (is_archived note)
  && col_is false (is_trashed note).

Definition reminder_fields (row : string * Note) : list (string * pyval) :=
  [("id", PStr row.1);
   ("title", title row.2);
   ("content", content row.2);
   ("reminder_datetime", reminder_datetime row.2);
   ("reminder_email", reminder_email row.2);
   ("updated_at", PDatetime (updated_at row.2))].

(** GET /reminders *)
Definition get_reminders (W : World) : list (list (string * pyval)) :=
  reminder_fields <$> query_all active_reminder W.

(** ** Runs of the server *)

Inductive event :=
  | POST_notes (new_id : string) (data : gmap string pyval)
  | PUT_note (note_id : string) (data : gmap string pyval)
  | DELETE_note (note_id : string)
  | PUT_archive (note_id : string)
  | PUT_restore (note_id : string)
  | DELETE_permanent (note_id : string)
  | Timer
  | Startup.

(** The state a request leaves: the committed one, or the one it found when
    it answered 404 or raised. *)
Definition settle (W : World) (o : outcome) : World :=
  match o with
  | Done W' => W'
  | _ => W
  end.

Definition step (W : World) (ev : Z * event) : World :=
  let now := ev.1 in
  match ev.2 with
  | POST_notes new_id data => settle W (create_note now new_id data W)
  | PUT_note note_id data => settle W (update_note now note_id data W)
  | DELETE_note note_id => settle W (delete_note now note_id W)
  | PUT_archive note_id => settle W (archive_note now note_id W)
  | PUT_restore note_id => settle W (restore_note now note_id W)
  | DELETE_permanent note_id => settle W (permanent_delete_note note_id W)
  | Timer => run_pending now W
  | Startup => check_missed_reminders now W
  end.

Definition run (W : World) (evs : list (Z * event)) : World := foldl step W evs.

(** ** The list views *)

(** The dict [get_notes] builds for one row; the conditional expression on
    [reminder_datetime] is the one of [get_single_note]. *)
Definition note_fields (row : string * Note) : exn + list (string * pyval) :=
  match isoformat_or_none (reminder_datetime row.2) with
  | inl e => inl e
  | inr rd =>
    inr [("id", PStr row.1);
         ("title", title row.2);
         ("content", content row.2);
         ("is_pinned", is_pinned row.2);
         ("has_reminder", has_reminder row.2);
         ("reminder_datetime", rd);
         ("reminder_email", reminder_email row.2);
         ("created_at", PStr (isoformat (created_at row.2)));
         ("updated_at", PStr (isoformat (updated_at row.2)));
         ("is_archived", is_archived row.2);
         ("is_trashed", is_trashed row.2)]
  end.

(** The list comprehension [[{...} for note in notes]]: the entries in
    order, or the first exception an entry raises. *)
Fixpoint comprehension (rows : list (string * Note))
    : exn + list (list (string * pyval)) :=
  match rows with
  | [] => inr []
  | row :: rest =>
    match note_fields row with
    | inl e => inl e
    | inr entry =>
      match comprehension rest with
      | inl e => inl e
      | inr entries => inr (entry :: entries)
      end
    end
  end.

(** [filter_by(is_archived=False, is_trashed=False)] *)
Definition active (note : Note) : bool :=
  col_is false (is_archived note) && col_is false (is_trashed note).

(** GET /notes *)
Definition get_notes (W : World) : exn + list (list (string * pyval)) :=
  comprehension (query_all active W).

(** The dict [get_archived_notes] and [get_trashed_notes] build for a row. *)
Definition summary_fields (row : string * Note) : list (string * pyval) :=
  [("id", PStr row.1);
   ("title", title row.2);
   ("content", content row.2);
   ("updated_at", PDatetime (updated_at row.2))].

(** [filter_by(is_archived=True, is_trashed=False)] *)
Definition in_archive (note : Note) : bool :=
  col_is true (is_archived note) && col_is false (is_trashed note).

(** GET /archives *)
Definition get_archived_notes (W : World) : list (list (string * pyval)) :=
  summary_fields <$> query_all in_archive W.

(** [filter_by(is_trashed=True)] *)
Definition in_trash (note : Note) : bool := col_is true (is_trashed note).

(** GET /trash *)
Definition get_trashed_notes (W : World) : list (list (string * pyval)) :=
  summary_fields <$> query_all in_trash W.

End Server.

(** The note a request creates or names in its path. *)
Definition request_id (ev : event) : option string :=
  match ev with
  | POST_notes note_id _ | PUT_note note_id _ | DELETE_note note_id
  | PUT_archive note_id | PUT_restore note_id | DELETE_permanent note_id =>
      Some note_id
  | Timer | Startup => None
  end.

(** A message addressed to exactly one recipient, which is not empty. *)
Definition one_recipient (m : Message) : Prop :=
  ∃ v, recipients m = [v] ∧ py_truthy v = true.

(** The events that are HTTP requests; the other two are the scheduler
    firing and the start-up sweep. *)
Definition is_request (ev : event) : bool :=
  match ev with
  | Timer | Startup => false
  | _ => true
  end.

(** The constraint [nullable=False] as a property of the table: every row
    has a [title] and a [content]. *)
Definition rows_not_null (W : World) : Prop :=
  ∀ k note, notes W !! k = Some note → nullable_ok note = true.

(** The column types of the model (lines 44-53) as a property of a row: a
    String or Text cell holds None or a string, a Boolean cell None or a
    Boolean, the DateTime cell [reminder_datetime] None or a datetime. *)
Definition is_text (v : pyval) : bool :=
  match v with PNone | PStr _ => true | _ => false end.

Definition is_boolean (v : pyval) : bool :=
  match v with PNone | PBool _ => true | _ => false end.

Definition is_datetime (v : pyval) : bool :=
  match v with PNone | PDatetime _ => true | _ => false end.

Definition typed (note : Note) : bool :=
  is_text (title note) && is_text (content note)
  && is_boolean (is_pinned note) && is_boolean (has_reminder note)
  && is_datetime (reminder_datetime note) && is_text (reminder_email note)
  && is_boolean (is_archived note) && is_boolean (is_trashed note).

Definition rows_typed (W : World) : Prop :=
  ∀ k note, notes W !! k = Some note → typed note = true.

(** [entry[key]] on a dict of a response, and the ids a listing shows. *)
Definition field (key : string) (entry : list (string * pyval)) : option pyval :=
  snd <$> ((λ found, found.2) <$> list_find (λ kv, kv.1 = key) entry).

Definition ids (entries : list (list (string * pyval))) : list pyval :=
  omap (field "id") entries.

(** ** config.py *)

(** [os.environ.get(name, default)]: a variable that is set gives its text. *)
Definition environ_get (environ : gmap string string) (name : string)
    (default : pyval) : pyval :=
  match environ !! name with
  | Some text => PStr text
  | None => default
  end.

Record Config := mkConfig {
  SQLALCHEMY_DATABASE_URI : pyval;
  SQLALCHEMY_TRACK_MODIFICATIONS : pyval;
  MAIL_SERVER : pyval;
  MAIL_PORT : pyval;
  MAIL_USE_TLS : pyval;
  MAIL_USERNAME : pyval;
  MAIL_PASSWORD : pyval;
  MAIL_DEFAULT_SENDER : pyval
}.

(** The module-level assignments of config.py, on the environment as
    [load_dotenv()] leaves it. *)
Definition config (environ : gmap string string) : Config :=
  {| SQLALCHEMY_DATABASE_URI :=
       environ_get environ "SQLALCHEMY_DATABASE_URI" (PStr "sqlite:///default.db");
     SQLALCHEMY_TRACK_MODIFICATIONS :=
       environ_get environ "SQLALCHEMY_TRACK_MODIFICATIONS" (PBool false);
     MAIL_SERVER := environ_get environ "MAIL_SERVER" PNone;
     MAIL_PORT := environ_get environ "MAIL_PORT" PNone;
     MAIL_USE_TLS := environ_get environ "MAIL_USE_TLS" PNone;
     MAIL_USERNAME := environ_get environ "MAIL_USERNAME" PNone;
     MAIL_PASSWORD := environ_get environ "MAIL_PASSWORD" PNone;
     MAIL_DEFAULT_SENDER := environ_get environ "MAIL_DEFAULT_SENDER" PNone |}.

Definition empty_world : World := mkWorld ∅ [] [] [].

(** ** Sample data

    A runtime that tabulates the library functions on the values the
    examples use, with a mail transport that accepts every message and one
    that refuses every message, and the scenario of the "Pay rent" note. *)
Module Sample.

Definition at_0800 : Z := 1735718400000000.
Definition at_0900 : Z := 1735722000000000.
Definition next_0900 : Z := 1735808400000000.

Definition iso_table : list (string * Z) :=
  [("2025-01-01T08:00:00", at_0800);
   ("2025-01-01T08:00:00.000001", at_0800 + 1);
   ("2025-01-01T09:00:00", at_0900);
   ("2025-01-02T09:00:00", next_0900)].

Definition parse (s : string) : option Z :=
  (λ found, found.2.2) <$> list_find (λ e, e.1 = s) iso_table.

Definition render (t : Z) : string :=
  default "" ((λ found, found.2.1) <$> list_find (λ e, e.2 = t) iso_table).

Definition text (v : pyval) : string :=
  match v with
  | PStr s => s
  | _ => ""
  end.

(** The next reading of the clock, one microsecond later. *)
Definition next_reading (t : Z) : Z := t + 1.

(** The columns of the examples: a string column takes text, a Boolean
    column takes a Boolean, 0 or 1, and both take None. *)
Definition column_string (n : option nat) (v : pyval) : option pyval :=
  match v with
  | PNone => Some PNone
  | PStr s => Some (PStr s)
  | _ => None
  end.

Definition column_boolean (v : pyval) : option pyval :=
  match v with
  | PNone => Some PNone
  | PBool b => Some (PBool b)
  | PInt z =>
      if z =? 0 then Some (PBool false)
      else if z =? 1 then Some (PBool true) else None
  | _ => None
  end.

Lemma next_reading_le t : t ≤ next_reading t.
Proof. unfold next_reading. lia. Qed.

Lemma column_string_typed n v w :
  column_string n v = Some w →
  (v = PNone ∧ w = PNone) ∨ (v ≠ PNone ∧ ∃ s, w = PStr s).
Proof.
  destruct v; simpl; intros [= <-]; [by left|]. right. split; [done|]. by eexists.
Qed.

Lemma column_string_fits n s :
  match n with Some k => (String.length s ≤ k)%nat | None => True end →
  column_string n (PStr s) = Some (PStr s).
Proof. done. Qed.

Lemma column_boolean_typed v w :
  column_boolean v = Some w →
  (v = PNone ∧ w = PNone) ∨ (v ≠ PNone ∧ w = PBool (py_truthy v)).
Proof.
  destruct v as [|b|z| | | | |]; simpl; try done.
  - intros [= <-]. by left.
  - intros [= <-]. by right.
  - destruct (z =? 0) eqn:H0.
    + intros [= <-]. by right.
    + destruct (z =? 1) eqn:H1; [|done]. intros [= <-]. by right.
Qed.

Definition smtp_up : Runtime :=
  {| fromisoformat := parse;
     isoformat := render;
     py_str := text;
     mail_send := λ _, None;
     tick := next_reading;
     bind_string := column_string;
     bind_boolean := column_boolean;
     tick_le := next_reading_le;
     bind_string_typed := column_string_typed;
     bind_string_null := λ _, eq_refl;
     bind_string_fits := column_string_fits;
     bind_boolean_typed := column_boolean_typed;
     bind_boolean_null := eq_refl;
     bind_boolean_bool := λ _, eq_refl |}.

Definition smtp_down : Runtime :=
  {| fromisoformat := parse;
     isoformat := render;
     py_str := text;
     mail_send := λ _, Some "Connection refused";
     tick := next_reading;
     bind_string := column_string;
     bind_boolean := column_boolean;
     tick_le := next_reading_le;
     bind_string_typed := column_string_typed;
     bind_string_null := λ _, eq_refl;
     bind_string_fits := column_string_fits;
     bind_boolean_typed := column_boolean_typed;
     bind_boolean_null := eq_refl;
     bind_boolean_bool := λ _, eq_refl |}.

Definition rent : gmap string pyval :=
  list_to_map
    [("title", PStr "Pay rent");
     ("content", PStr "due today");
     ("has_reminder", PBool true);
     ("reminder_datetime", PStr "2025-01-01T09:00:00");
     ("reminder_email", PStr "a@b.com")].

Definition rent_note : Note :=
  {| title := PStr "Pay rent";
     content := PStr "due today";
     is_pinned := PBool false;
     has_reminder := PBool true;
     reminder_datetime := PDatetime at_0900;
     reminder_email := PStr "a@b.com";
     created_at := at_0800;
     updated_at := at_0800 + 1;
     is_archived := PBool false;
     is_trashed := PBool false |}.

(** The state after [POST /notes] with [rent] at 08:00. *)
Definition rent_world : World :=
  {| notes := {[ "n1" := rent_note ]};
     jobs := [mkJob "reminder_n1" at_0900 "n1"];
     outbox := [];
     log := [] |}.

(** A note whose flag is set while no time and no recipient were given. *)
Definition flag_only : gmap string pyval :=
  list_to_map
    [("title", PStr "Call Ann");
     ("content", PStr "about the keys");
     ("has_reminder", PBool true)].

Definition retitle : gmap string pyval :=
  list_to_map [("title", PStr "Pay rent today")].

Definition new_recipient : gmap string pyval :=
  list_to_map [("reminder_email", PStr "c@d.com")].

Definition remind_at (s : string) : gmap string pyval :=
  list_to_map [("has_reminder", PBool true); ("reminder_datetime", PStr s)].

(** A note with a recipient and no reminder yet. *)
Definition plain : gmap string pyval :=
  list_to_map
    [("title", PStr "Pay rent");
     ("content", PStr "due today");
     ("reminder_email", PStr "a@b.com")].

Definition minutes (n : Z) : Z := n * 60 * 1000000.

(** The note is created at 08:00 and its reminder is set twice, first to
    09:00 the same day, then to 09:00 the next day. *)
Definition two_updates : list (Z * event) :=
  [(at_0800, POST_notes "n1" plain);
   (at_0800 + minutes 1, PUT_note "n1" (remind_at "2025-01-01T09:00:00"));
   (at_0800 + minutes 2, PUT_note "n1" (remind_at "2025-01-02T09:00:00"))].

(** A row whose reminder time is [ago] before 09:00. *)
Definition overdue (ago : Z) : Note :=
  {| title := PStr "Pay rent";
     content := PStr "due today";
     is_pinned := PBool false;
     has_reminder := PBool true;
     reminder_datetime := PDatetime (at_0900 - ago);
     reminder_email := PStr "a@b.com";
     created_at := at_0900 - ago - minutes 60;
     updated_at := at_0900 - ago - minutes 60;
     is_archived := PBool false;
     is_trashed := PBool false |}.

(** The table found at start-up at 09:00: one reminder two hours old, one
    thirty hours old. *)
Definition restart_world : World :=
  {| notes := {[ "n1" := overdue (minutes 120); "n2" := overdue (minutes 1800) ]};
     jobs := [];
     outbox := [];
     log := [] |}.

(** The "Pay rent" payload without the key 'has_reminder'. *)
Definition unflagged : gmap string pyval := delete "has_reminder" rent.

(** A row whose [is_trashed] is NULL. *)
Definition nulled_note : Note :=
  {| title := PStr "Call Ann";
     content := PStr "about the keys";
     is_pinned := PBool false;
     has_reminder := PBool false;
     reminder_datetime := PNone;
     reminder_email := PNone;
     created_at := at_0800;
     updated_at := at_0800;
     is_archived := PBool false;
     is_trashed := PNone |}.

Definition nulled_world : World :=
  {| notes := {[ "n3" := nulled_note ]}; jobs := []; outbox := []; log := [] |}.

(** The row of "n1" that [POST /notes] with [plain] commits at 08:00. *)
Definition plain_note : Note :=
  {| title := PStr "Pay rent";
     content := PStr "due today";
     is_pinned := PBool false;
     has_reminder := PBool false;
     reminder_datetime := PNone;
     reminder_email := PStr "a@b.com";
     created_at := at_0800;
     updated_at := at_0800 + 1;
     is_archived := PBool false;
     is_trashed := PBool false |}.

(** A payload that turns the reminder off, and a run in which it is sent at
    08:30 for the "Pay rent" note before the timer fires at 09:00. *)
Definition switch_off : gmap string pyval :=
  list_to_map [("has_reminder", PBool false)].

Definition switched_off : list (Z * event) :=
  [(at_0800 + minutes 30, PUT_note "n1" switch_off); (at_0900, Timer)].

(** The note is created with its reminder at 08:00 and the timer fires at
    09:00. *)
Definition rent_fires : list (Z * event) :=
  [(at_0800, POST_notes "n1" rent); (at_0900, Timer)].

Definition rent_message : Message :=
  {| subject := "Reminder: Pay rent";
     recipients := [PStr "a@b.com"];
     body := "due today" |}.

End Sample.

(** * Properties *)

Section Dispatcher.
Context {rt : Runtime}.

Lemma py_truthy_empty :
  py_truthy PNone = false ∧ py_truthy (PStr "") = false
  ∧ py_truthy (PBool false) = false.
Proof. done. Qed.

Lemma send_reminder_email_sent now note_id W note :
  notes W !! note_id = Some note →
  py_truthy (has_reminder note) = true →
  py_truthy (reminder_email note) = true →
  mail_send (reminder_message note) = None →
  send_reminder_email now note_id W
  = set_notes (logger (sent_info note_id note) (deliver (reminder_message note) W))
      (<[note_id := clear_reminder now note]> (notes W)).
Proof.
  intros Hn Hr He Hs. unfold send_reminder_email.
  by rewrite Hn, Hr, He, Hs.
Qed.

Lemma send_reminder_email_failed now note_id W note text :
  notes W !! note_id = Some note →
  py_truthy (has_reminder note) = true →
  py_truthy (reminder_email note) = true →
  mail_send (reminder_message note) = Some text →
  send_reminder_email now note_id W = logger (send_failure_error note_id text) W.
Proof.
  intros Hn Hr He Hs. unfold send_reminder_email.
  by rewrite Hn, Hr, He, Hs.
Qed.

Lemma send_reminder_email_invalid now note_id W :
  (∀ note, notes W !! note_id = Some note →
     py_truthy (has_reminder note) && py_truthy (reminder_email note) = false) →
  send_reminder_email now note_id W = logger (invalid_note_warning note_id) W.
Proof.
  intros Hinv. unfold send_reminder_email.
  destruct (notes W !! note_id) as [note|]; [|done].
  by rewrite (Hinv note eq_refl).
Qed.

(** Dispatch touches no row but the one it was called for. *)
Lemma send_reminder_email_other now note_id W other :
  other ≠ note_id →
  notes (send_reminder_email now note_id W) !! other = notes W !! other.
Proof.
  intros Hne. unfold send_reminder_email.
  destruct (notes W !! note_id) as [note|]; [|done].
  destruct (py_truthy (has_reminder note) && py_truthy (reminder_email note)); [|done].
  destruct (mail_send (reminder_message note)); [done|].
  simpl. by rewrite lookup_insert_ne.
Qed.

(** Dispatch never touches the table of timers. *)
Lemma send_reminder_email_jobs now note_id W :
  jobs (send_reminder_email now note_id W) = jobs W.
Proof.
  unfold send_reminder_email.
  destruct (notes W !! note_id) as [note|]; [|done].
  destruct (py_truthy (has_reminder note) && py_truthy (reminder_email note)); [|done].
  by destruct (mail_send (reminder_message note)).
Qed.

(** C4. When the note has its reminder flag set and a non-empty recipient and
    the transport accepts the message, dispatch sends that message and the
    stored note afterwards has [has_reminder = False] and
    [reminder_datetime = None]; [GET /notes/<id>] then answers 200 with these
    two values. *)
Theorem dispatch_success_clears now note_id W note :
  notes W !! note_id = Some note →
  py_truthy (has_reminder note) = true →
  py_truthy (reminder_email note) = true →
  mail_send (reminder_message note) = None →
  let W' := send_reminder_email now note_id W in
  outbox W' = outbox W ++ [reminder_message note]
  ∧ (∃ note', notes W' !! note_id = Some note'
       ∧ has_reminder note' = PBool false
       ∧ reminder_datetime note' = PNone)
  ∧ (∃ fields, get_single_note note_id W' = Ok200 fields
       ∧ ("has_reminder", PBool false) ∈ fields
       ∧ ("reminder_datetime", PNone) ∈ fields).
Proof.
  intros Hn Hr He Hs W'. subst W'.
  rewrite (send_reminder_email_sent _ _ _ _ Hn Hr He Hs).
  split; [done|]. split.
  - exists (clear_reminder now note). simpl. by rewrite lookup_insert_eq.
  - unfold get_single_note. simpl. rewrite lookup_insert_eq. simpl.
    eexists. split; [done|]. split; repeat first [by left|right].
Qed.

(** C5. When the transport raises for a note with its reminder flag set and
    a non-empty recipient, dispatch returns normally: the table of notes (so
    the note's [has_reminder], [reminder_datetime] and [reminder_email]), the
    timers and the outbox are as before, one ERROR record carrying the
    exception text is appended to the log, and every [GET /notes/<id>]
    answers as before. *)
Theorem dispatch_transport_failure now note_id W note text :
  notes W !! note_id = Some note →
  py_truthy (has_reminder note) = true →
  py_truthy (reminder_email note) = true →
  mail_send (reminder_message note) = Some text →
  let W' := send_reminder_email now note_id W in
  notes W' = notes W
  ∧ notes W' !! note_id = Some note
  ∧ jobs W' = jobs W
  ∧ outbox W' = outbox W
  ∧ log W' = log W ++ [send_failure_error note_id text]
  ∧ ∀ other, get_single_note other W' = get_single_note other W.
Proof.
  intros Hn Hr He Hs W'. subst W'.
  by rewrite (send_reminder_email_failed _ _ _ _ _ Hn Hr He Hs).
Qed.

(** C8. When the note is absent, or its [has_reminder] is false, or its
    [reminder_email] is None or empty, dispatch sends nothing and changes no
    stored state: notes, timers and outbox are as before and one WARNING
    record is appended to the log. *)
Theorem dispatch_noop now note_id W :
  notes W !! note_id = None
  ∨ (∃ note, notes W !! note_id = Some note
       ∧ (py_truthy (has_reminder note) = false
          ∨ py_truthy (reminder_email note) = false)) →
  let W' := send_reminder_email now note_id W in
  notes W' = notes W
  ∧ jobs W' = jobs W
  ∧ outbox W' = outbox W
  ∧ log W' = log W ++ [invalid_note_warning note_id].
Proof.
  intros Hcase W'. subst W'.
  rewrite send_reminder_email_invalid; [done|].
  intros note Hn. destruct Hcase as [Hnone|(note0 & Hn0 & [Hf|Hf])].
  - congruence.
  - assert (note0 = note) as -> by congruence. by rewrite Hf.
  - assert (note0 = note) as -> by congruence. rewrite Hf. apply andb_false_r.
Qed.

End Dispatcher.

Section Handlers.
Context {rt : Runtime}.

Lemma parse_reminder_datetime_value data v :
  parse_reminder_datetime data = inr v → v = PNone ∨ ∃ t, v = PDatetime t.
Proof.
  unfold parse_reminder_datetime.
  destruct (py_truthy _); [|intros [= <-]; by left].
  destruct (data !! "reminder_datetime") as [[]|]; try done.
  destruct (fromisoformat s) as [t|]; [|done].
  intros [= <-]. right. by exists t.
Qed.

Lemma schedule_if_set_notes note_id note W :
  notes (schedule_if_set note_id note W) = notes W.
Proof.
  unfold schedule_if_set. destruct (_ && _); [|done].
  by destruct (reminder_datetime note).
Qed.

Lemma cancel_key key js j : j ∈ cancel key js → job_id j ≠ key.
Proof. unfold cancel. by intros [? _]%list_elem_of_filter. Qed.

Lemma add_job_key key due payload js j :
  j ∈ add_job key due payload js → job_id j = key → j = mkJob key due payload.
Proof.
  unfold add_job. intros [Hin|Hin]%elem_of_app Hk.
  - by apply cancel_key in Hin.
  - by apply list_elem_of_singleton in Hin.
Qed.

(** A row the flush accepts has, in its DateTime column, the datetime or
    None that was bound. *)
Lemma bind_row_datetime note row :
  bind_row note = Some row →
  reminder_datetime row = reminder_datetime note
  ∧ (reminder_datetime note = PNone ∨ ∃ d, reminder_datetime note = PDatetime d).
Proof.
  unfold bind_row. intros Hrow. simplify_option_eq.
  destruct (reminder_datetime note); simplify_eq/=; split; eauto.
Qed.

(** The flush of an update fails on the DateTime column. *)
Lemma flush_assign now data dt note :
  flush (assign now data dt note) = inl StatementError.
Proof.
  unfold flush. destruct (bind_row _) as [row|] eqn:Hrow; [|done].
  apply bind_row_datetime in Hrow as [_ [Hrd|[d Hrd]]]; done.
Qed.

Lemma update_note_raises now note_id data W note :
  notes W !! note_id = Some note →
  update_note now note_id data W
  = match parse_reminder_datetime data with
    | inl e => Raised e
    | inr _ => Raised StatementError
    end.
Proof.
  intros Hn. unfold update_note. rewrite Hn.
  destruct (parse_reminder_datetime data) as [e|dt]; [done|].
  by rewrite flush_assign.
Qed.

Lemma update_note_not_done now note_id data W W' :
  update_note now note_id data W ≠ Done W'.
Proof.
  destruct (notes W !! note_id) as [note|] eqn:Hn.
  - rewrite (update_note_raises _ _ _ _ _ Hn). by destruct (parse_reminder_datetime _).
  - unfold update_note. by rewrite Hn.
Qed.

Lemma update_note_settle now note_id data W :
  settle W (update_note now note_id data W) = W.
Proof.
  destruct (update_note now note_id data W) as [W'| |e] eqn:Hu; [|done..].
  by apply update_note_not_done in Hu.
Qed.

Lemma parse_reminder_datetime_raises data e :
  parse_reminder_datetime data = inl e → e = TypeError ∨ e = ValueError.
Proof.
  unfold parse_reminder_datetime. destruct (py_truthy _); [|done].
  destruct (data !! "reminder_datetime") as [[| | |s| | | |]|];
    try (intros [= <-]; by left).
  destruct (fromisoformat s); [done|]. intros [= <-]. by right.
Qed.

(** What a committed create is made of. *)
Lemma create_note_done now new_id data W W' :
  create_note now new_id data W = Done W' →
  ∃ t c dt row,
    data !! "title" = Some t ∧ data !! "content" = Some c
    ∧ parse_reminder_datetime data = inr dt
    ∧ flush (new_note now data t c dt) = inr row
    ∧ notes W !! new_id = None
    ∧ W' = schedule_if_set new_id row
             (set_notes W (<[new_id := row]> (notes W))).
Proof.
  unfold create_note.
  destruct (data !! "title") as [t|]; [|done].
  destruct (data !! "content") as [c|]; [|done].
  destruct (parse_reminder_datetime data) as [e|dt]; [done|].
  destruct (flush _) as [e|row] eqn:Hrow; [done|].
  destruct (notes W !! new_id); [done|].
  intros [= <-]. by exists t, c, dt, row.
Qed.

(** C3 as amended. Whatever the payload, the assignment of line 164 binds
    to the attribute the one-element tuple of the parsed value, never a
    datetime or None itself; the DateTime column refuses it, so the flush
    fails and an update never commits: on an existing note it raises, and the
    stored notes, the timers, the outbox and the log are as before. An
    update neither sets nor disables a reminder. *)
Theorem update_never_commits now note_id data W :
  (∀ dt note,
     reminder_datetime (assign now data dt note) = PTuple [dt]
     ∧ bind_datetime (PTuple [dt]) = None
     ∧ flush (assign now data dt note) = inl StatementError)
  ∧ (∀ W', update_note now note_id data W ≠ Done W')
  ∧ settle W (update_note now note_id data W) = W
  ∧ (∀ note, notes W !! note_id = Some note →
       ∃ e, update_note now note_id data W = Raised e
         ∧ (e = TypeError ∨ e = ValueError ∨ e = StatementError)).
Proof.
  split; [|split; [|split]].
  - intros dt note. split; [done|]. split; [done|]. apply flush_assign.
  - intros W'. apply update_note_not_done.
  - apply update_note_settle.
  - intros note Hn. rewrite (update_note_raises _ _ _ _ _ Hn).
    destruct (parse_reminder_datetime data) as [e|dt] eqn:Hp.
    + exists e. split; [done|].
      apply parse_reminder_datetime_raises in Hp as [->| ->]; auto.
    + exists StatementError. auto.
Qed.


(** C9. Trashing and archiving an existing note commit a row with the same
    [has_reminder], [reminder_datetime] and [reminder_email] and leave the
    table of timers as it was; if the flag is set, the recipient is non-empty
    and the transport accepts the message, dispatch on the trashed or
    archived note sends the message and clears the reminder. *)
Theorem trash_archive_keep_reminder now note_id W note :
  notes W !! note_id = Some note →
  ∃ Wt Wa nt na,
    delete_note now note_id W = Done Wt
    ∧ archive_note now note_id W = Done Wa
    ∧ jobs Wt = jobs W ∧ jobs Wa = jobs W
    ∧ notes Wt !! note_id = Some nt ∧ notes Wa !! note_id = Some na
    ∧ is_trashed nt = PBool true ∧ is_archived na = PBool true
    ∧ has_reminder nt = has_reminder note
    ∧ reminder_datetime nt = reminder_datetime note
    ∧ reminder_email nt = reminder_email note
    ∧ has_reminder na = has_reminder note
    ∧ reminder_datetime na = reminder_datetime note
    ∧ reminder_email na = reminder_email note
    ∧ (py_truthy (has_reminder note) = true →
       py_truthy (reminder_email note) = true →
       mail_send (reminder_message note) = None →
       ∀ later W0, W0 = Wt ∨ W0 = Wa →
         let W1 := send_reminder_email later note_id W0 in
         outbox W1 = outbox W0 ++ [reminder_message note]
         ∧ ∃ n1, notes W1 !! note_id = Some n1
             ∧ has_reminder n1 = PBool false
             ∧ reminder_datetime n1 = PNone).
Proof.
  intros Hn. unfold delete_note, archive_note, modify. rewrite Hn.
  eexists _, _, (trashed now note), (archived now note).
  split; [done|]. split; [done|]. split; [done|]. split; [done|].
  split; [apply lookup_insert_eq|]. split; [apply lookup_insert_eq|].
  do 8 (split; [done|]).
  intros Hr He Hs later W0 Hcase.
  assert (∃ n0, notes W0 !! note_id = Some n0
            ∧ has_reminder n0 = has_reminder note
            ∧ reminder_email n0 = reminder_email note
            ∧ reminder_message n0 = reminder_message note)
    as (n0 & Hn0 & Hr0 & He0 & Hm0).
  { destruct Hcase as [->| ->]; eexists; (split; [apply lookup_insert_eq|done]). }
  destruct (dispatch_success_clears later note_id W0 n0 Hn0) as (Ho & Hc & _);
    [congruence..|].
  by rewrite <-Hm0.
Qed.

End Handlers.

Section Sweep.
Context {rt : Runtime}.

Lemma query_all_spec p W note_id note :
  (note_id, note) ∈ query_all p W ↔ notes W !! note_id = Some note ∧ p note = true.
Proof.
  unfold query_all. rewrite list_elem_of_filter, elem_of_map_to_list. simpl.
  tauto.
Qed.

Lemma query_all_NoDup p W : NoDup (query_all p W).*1.
Proof.
  unfold query_all.
  eapply sublist_NoDup; [apply (NoDup_fst_map_to_list (notes W))|].
  apply fmap_sublist, sublist_filter.
Qed.

Lemma missed_spec current_time note :
  missed current_time note = true ↔
  col_is true (has_reminder note) = true
  ∧ ∃ t, reminder_datetime note = PDatetime t
      ∧ t ≤ current_time ∧ current_time - timedelta_days 1 < t.
Proof.
  unfold missed. rewrite !andb_true_iff.
  destruct (reminder_datetime note) as [| | | |d| | |]; simpl.
  5: { rewrite Z.leb_le, Z.ltb_lt. split.
       - intros [[Hh Hle] Hgt]. split; [done|]. by exists d.
       - by intros (Hh & t & [= ->] & Hle & Hgt). }
  all: split; [by intros [[_ ?] _]|by intros (_ & t & ? & _)].
Qed.

(** The row dispatch leaves and the message it adds, from the row it finds. *)
Lemma send_reminder_email_row now note_id W note :
  notes W !! note_id = Some note →
  notes (send_reminder_email now note_id W) !! note_id = Some (dispatched now note)
  ∧ outbox (send_reminder_email now note_id W)
    = outbox W ++ option_list (to_send note).
Proof.
  intros Hn. unfold send_reminder_email, dispatched, to_send. rewrite Hn.
  destruct (py_truthy (has_reminder note) && py_truthy (reminder_email note)).
  - destruct (mail_send (reminder_message note)); simpl.
    + by rewrite app_nil_r.
    + by rewrite lookup_insert_eq.
  - simpl. by rewrite app_nil_r.
Qed.

Lemma sweep_skips current_time rows : ∀ W note_id,
  note_id ∉ rows.*1 →
  notes (foldl (sweep_step current_time) W rows) !! note_id = notes W !! note_id.
Proof.
  induction rows as [|row rows IH]; intros W note_id Hnot; [done|].
  simpl in *. apply not_elem_of_cons in Hnot as [Hne Hnot].
  rewrite IH by done. unfold sweep_step. simpl.
  by apply send_reminder_email_other.
Qed.

Lemma sweep_dispatches current_time rows : ∀ W note_id note,
  NoDup rows.*1 →
  (note_id, note) ∈ rows →
  notes W !! note_id = Some note →
  notes (foldl (sweep_step current_time) W rows) !! note_id
  = Some (dispatched current_time note).
Proof.
  induction rows as [|row rows IH]; intros W note_id note Hnd Hin Hn.
  - by apply elem_of_nil in Hin.
  - simpl in *. apply NoDup_cons in Hnd as [Hfresh Hnd].
    destruct (decide (row.1 = note_id)) as [Heq|Hne].
    + rewrite sweep_skips by (by rewrite <-Heq).
      unfold sweep_step. simpl. rewrite Heq.
      by apply send_reminder_email_row.
    + apply elem_of_cons in Hin as [Heq|Hin]; [by subst row|].
      apply IH; [done..|]. unfold sweep_step. simpl.
      rewrite send_reminder_email_other by done. done.
Qed.

Lemma sweep_outbox current_time rows : ∀ W,
  NoDup rows.*1 →
  (∀ row, row ∈ rows → notes W !! row.1 = Some row.2) →
  outbox (foldl (sweep_step current_time) W rows)
  = outbox W ++ omap (λ row, to_send row.2) rows.
Proof.
  induction rows as [|row rows IH]; intros W Hnd Hrows.
  - simpl. by rewrite app_nil_r.
  - simpl in *. apply NoDup_cons in Hnd as [Hfresh Hnd].
    rewrite IH; [|done|].
    + unfold sweep_step at 1. simpl.
      destruct (send_reminder_email_row current_time row.1 W row.2) as [_ ->].
      { apply Hrows. by left. }
      rewrite <-app_assoc. by destruct (to_send row.2).
    + intros row' Hin. unfold sweep_step. simpl.
      rewrite send_reminder_email_other.
      * apply Hrows. by right.
      * intros Heq. apply Hfresh. rewrite <-Heq. by apply list_elem_of_fmap_2.
Qed.

(** C6. The sweep selects exactly the rows with [has_reminder == True],
    [reminder_datetime <= now] and [reminder_datetime > now - 24 h]; each
    selected note is dispatched (its row afterwards is the one dispatch
    leaves, and the messages the sweep sends are those dispatch sends for the
    selected notes); a note whose reminder time is at or before the start of
    the window is not selected, and its row is left as it was. *)
Theorem sweep_selects_window current_time W :
  let selected := query_all (missed current_time) W in
  let W' := check_missed_reminders current_time W in
  timedelta_days 1 = 24 * 3600 * 1000000
  ∧ (∀ note_id note,
       (note_id, note) ∈ selected ↔
       notes W !! note_id = Some note
       ∧ col_is true (has_reminder note) = true
       ∧ ∃ t, reminder_datetime note = PDatetime t
           ∧ t ≤ current_time ∧ current_time - timedelta_days 1 < t)
  ∧ (∀ note_id note, (note_id, note) ∈ selected →
       notes W' !! note_id
       = notes (send_reminder_email current_time note_id W) !! note_id)
  ∧ (∀ m, m ∈ outbox W' ↔
       m ∈ outbox W
       ∨ ∃ note_id note, (note_id, note) ∈ selected
           ∧ m ∈ outbox (send_reminder_email current_time note_id W))
  ∧ (∀ note_id note, notes W !! note_id = Some note →
       (note_id, note) ∉ selected → notes W' !! note_id = Some note)
  ∧ (∀ note_id note t, notes W !! note_id = Some note →
       reminder_datetime note = PDatetime t →
       t ≤ current_time - timedelta_days 1 →
       ((note_id, note) ∉ selected) ∧ notes W' !! note_id = Some note).
Proof.
  intros selected W'.
  assert (Hsel : ∀ note_id note, (note_id, note) ∈ selected ↔
            notes W !! note_id = Some note ∧ missed current_time note = true)
    by (intros; apply query_all_spec).
  assert (Hskip : ∀ note_id note, notes W !! note_id = Some note →
            (note_id, note) ∉ selected → notes W' !! note_id = Some note).
  { intros note_id note Hn Hnot. subst W'. unfold check_missed_reminders.
    fold selected.
    rewrite sweep_skips; [done|].
    intros ([k n] & -> & Hin)%list_elem_of_fmap. simpl in *.
    apply Hsel in Hin as Hin'. destruct Hin' as [Hn' _].
    assert (n = note) as -> by congruence. done. }
  split; [done|]. split; [|split; [|split; [|split]]].
  - intros note_id note. rewrite Hsel, missed_spec. tauto.
  - intros note_id note Hin. apply Hsel in Hin as Hin'. destruct Hin' as [Hn _].
    destruct (send_reminder_email_row current_time note_id W note Hn) as [-> _].
    subst W'. unfold check_missed_reminders.
    fold selected. apply sweep_dispatches; [apply query_all_NoDup|done..].
  - intros m. subst W'. unfold check_missed_reminders.
    fold selected.
    rewrite sweep_outbox;
      [|apply query_all_NoDup|by intros [k n] [Hn _]%Hsel].
    rewrite elem_of_app, list_elem_of_omap. split.
    + intros [Hm|([k n] & Hin & Hts)]; [by left|]. right. exists k, n.
      split; [done|]. apply Hsel in Hin as [Hn _].
      destruct (send_reminder_email_row current_time k W n Hn) as [_ ->].
      simpl in Hts. rewrite Hts. apply elem_of_app. right.
      by apply list_elem_of_singleton.
    + intros [Hm|(k & n & Hin & Hm)]; [by left|].
      apply Hsel in Hin as Hin'. destruct Hin' as [Hn _].
      destruct (send_reminder_email_row current_time k W n Hn) as [_ Ho].
      rewrite Ho in Hm. apply elem_of_app in Hm as [Hm|Hm]; [by left|].
      right. exists (k, n). split; [done|]. simpl.
      destruct (to_send n) as [m'|]; simpl in Hm.
      * apply list_elem_of_singleton in Hm. by subst.
      * by apply elem_of_nil in Hm.
  - done.
  - intros note_id note t Hn Ht Hold.
    assert ((note_id, note) ∉ selected) as Hnot.
    { rewrite Hsel, missed_spec. intros (_ & _ & t' & Ht' & _ & Hgt).
      assert (t' = t) as -> by congruence. lia. }
    split; [done|]. by apply Hskip.
Qed.

Lemma ids_reminders rows :
  ids (reminder_fields <$> rows) = (λ row, PStr row.1) <$> rows.
Proof.
  induction rows as [|row rows IH]; [done|].
  rewrite !fmap_cons, <-IH. done.
Qed.

(** C7 as amended. [GET /reminders] lists exactly the notes with
    [has_reminder == True], [is_archived == False] and [is_trashed == False],
    one entry for each (every entry carries an id and no id comes twice),
    whatever their [reminder_datetime] and [reminder_email] are; the entry
    carries these two values as stored. *)
Theorem get_reminders_by_flag W :
  NoDup (ids (get_reminders W))
  ∧ length (get_reminders W) = length (ids (get_reminders W))
  ∧ (∀ note_id,
       PStr note_id ∈ ids (get_reminders W) ↔
       ∃ note, notes W !! note_id = Some note
         ∧ col_is true (has_reminder note) = true
         ∧ col_is false (is_archived note) = true
         ∧ col_is false (is_trashed note) = true)
  ∧ ∀ fields,
      fields ∈ get_reminders W ↔
      ∃ note_id note,
        notes W !! note_id = Some note
        ∧ col_is true (has_reminder note) = true
        ∧ col_is false (is_archived note) = true
        ∧ col_is false (is_trashed note) = true
        ∧ fields = [("id", PStr note_id);
                    ("title", title note);
                    ("content", content note);
                    ("reminder_datetime", reminder_datetime note);
                    ("reminder_email", reminder_email note);
                    ("updated_at", PDatetime (updated_at note))].
Proof.
  assert (Hact : ∀ note, active_reminder note = true ↔
            col_is true (has_reminder note) = true
            ∧ col_is false (is_archived note) = true
            ∧ col_is false (is_trashed note) = true).
  { intros note. unfold active_reminder. rewrite !andb_true_iff. tauto. }
  unfold get_reminders. rewrite ids_reminders.
  split; [|split; [|split]].
  - pose proof (query_all_NoDup active_reminder W) as Hnd.
    assert ((λ row : string * Note, PStr row.1) <$> query_all active_reminder W
            = PStr <$> (query_all active_reminder W).*1) as ->
      by (by rewrite <-list_fmap_compose).
    apply NoDup_fmap_2; [|done]. by intros ?? [=].
  - by rewrite !length_fmap.
  - intros note_id. rewrite list_elem_of_fmap. split.
    + intros ([k n] & [= ->] & Hin). exists n.
      apply query_all_spec in Hin as [Hn Hp]. by apply Hact in Hp.
    + intros (n & Hn & Hp). exists (note_id, n). split; [done|].
      apply query_all_spec. split; [done|]. by apply Hact.
  - intros fields. rewrite list_elem_of_fmap. split.
    + intros ([k n] & -> & Hin). apply query_all_spec in Hin as [Hn Hp].
      apply Hact in Hp. exists k, n. tauto.
    + intros (k & n & Hn & Hr & Ha & Ht & ->). exists (k, n). split; [done|].
      apply query_all_spec. split; [done|]. by apply Hact.
Qed.

End Sweep.

Section Scheduler.
Context {rt : Runtime}.

Lemma job_key_inj a b : job_key a = job_key b → a = b.
Proof. unfold job_key. simpl. by intros [=]. Qed.

Lemma cancel_NoDup key js :
  NoDup (job_id <$> js) → NoDup (job_id <$> cancel key js).
Proof.
  intros Hnd. eapply sublist_NoDup; [exact Hnd|].
  apply fmap_sublist, sublist_filter.
Qed.

Lemma add_job_NoDup key due payload js :
  NoDup (job_id <$> js) → NoDup (job_id <$> add_job key due payload js).
Proof.
  intros Hnd. unfold add_job. rewrite fmap_app. apply NoDup_app.
  split; [by apply cancel_NoDup|]. split; [|apply NoDup_singleton].
  intros k (j & -> & Hin)%list_elem_of_fmap Hk. simpl in Hk.
  apply list_elem_of_singleton in Hk. by apply cancel_key in Hin.
Qed.

Lemma schedule_if_set_NoDup note_id note W :
  NoDup (job_id <$> jobs W) →
  NoDup (job_id <$> jobs (schedule_if_set note_id note W)).
Proof.
  intros Hnd. unfold schedule_if_set. destruct (_ && _); [|done].
  destruct (reminder_datetime note); try done.
  simpl. by apply add_job_NoDup.
Qed.

Lemma dispatch_all_jobs now js : ∀ W,
  jobs (foldl (λ W' j, send_reminder_email now (args j) W') W js) = jobs W.
Proof.
  induction js as [|j js IH]; intros W; [done|].
  simpl. by rewrite IH, send_reminder_email_jobs.
Qed.

Lemma run_pending_jobs now W :
  jobs (run_pending now W) = filter (λ j, job_due now j = false) (jobs W).
Proof. unfold run_pending. by rewrite dispatch_all_jobs. Qed.

Lemma sweep_jobs current_time rows : ∀ W,
  jobs (foldl (sweep_step current_time) W rows) = jobs W.
Proof.
  induction rows as [|row rows IH]; intros W; [done|].
  simpl. rewrite IH. unfold sweep_step. simpl. apply send_reminder_email_jobs.
Qed.

Lemma step_NoDup W ev :
  NoDup (job_id <$> jobs W) → NoDup (job_id <$> jobs (step W ev)).
Proof.
  intros Hnd. destruct ev as [now [new_id data|note_id data|note_id|note_id
    |note_id|note_id| |]]; unfold step; simpl.
  - destruct (create_note now new_id data W) as [W'| |e] eqn:Hc; try done.
    apply create_note_done in Hc as (t & c & dt & row & _ & _ & _ & _ & _ & ->).
    by apply schedule_if_set_NoDup.
  - by rewrite update_note_settle.
  - unfold delete_note, modify. by case_match.
  - unfold archive_note, modify. by case_match.
  - unfold restore_note, modify. by case_match.
  - unfold permanent_delete_note. by case_match.
  - rewrite run_pending_jobs.
    eapply sublist_NoDup; [exact Hnd|]. apply fmap_sublist, sublist_filter.
  - unfold check_missed_reminders. by rewrite sweep_jobs.
Qed.

Lemma filter_key_absent (key : string) (js : list Job) :
  key ∉ job_id <$> js → filter (λ j, job_id j = key) js = [].
Proof.
  induction js as [|j js IH]; intros Hnot; [done|].
  rewrite fmap_cons in Hnot. apply not_elem_of_cons in Hnot as [Hne Hnot].
  rewrite filter_cons. destruct (decide (job_id j = key)); [done|]. by apply IH.
Qed.

Lemma at_most_one (key : string) (js : list Job) :
  NoDup (job_id <$> js) →
  (length (filter (λ j, job_id j = key) js) ≤ 1)%nat.
Proof.
  induction js as [|j js IH]; intros Hnd; [simpl; lia|].
  rewrite fmap_cons in Hnd. apply NoDup_cons in Hnd as [Hfresh Hnd].
  rewrite filter_cons. destruct (decide (job_id j = key)) as [Hk|Hk].
  - rewrite filter_key_absent; [simpl; lia|]. by rewrite <-Hk.
  - by apply IH.
Qed.

(** With the scheduler keyed as the spec describes it, every run of the
    server keeps the timer keys distinct: under the key of a note there is
    never more than one timer. *)
Theorem one_timer_per_note evs : ∀ W,
  NoDup (job_id <$> jobs W) →
  NoDup (job_id <$> jobs (run W evs))
  ∧ ∀ note_id,
      (length (filter (λ j, job_id j = job_key note_id) (jobs (run W evs))) ≤ 1)%nat.
Proof.
  induction evs as [|ev evs IH]; intros W Hnd.
  - split; [done|]. intros. by apply at_most_one.
  - apply (IH (step W ev)). by apply step_NoDup.
Qed.

(** When no timer is due the scheduler has nothing to do. *)
Lemma run_pending_idle now W :
  (∀ j, j ∈ jobs W → job_due now j = false) → run_pending now W = W.
Proof.
  intros Hidle. unfold run_pending.
  assert (filter (λ j, job_due now j = true) (jobs W) = []) as ->.
  { induction (jobs W) as [|j js IH]; [done|].
    rewrite filter_cons. destruct (decide (job_due now j = true)) as [Hd|_].
    - rewrite Hidle in Hd; [done|by left].
    - apply IH. intros j' Hin. apply Hidle. by right. }
  assert (filter (λ j, job_due now j = false) (jobs W) = jobs W) as ->.
  { induction (jobs W) as [|j js IH]; [done|].
    rewrite filter_cons. destruct (decide (job_due now j = false)) as [_|Hd].
    - f_equal. apply IH. intros j' Hin. apply Hidle. by right.
    - destruct Hd. apply Hidle. by left. }
  by destruct W.
Qed.

(** The second [schedule] for a note supersedes the first: after it, the
    only timer under the note's key is the new one. *)
Lemma add_job_supersedes note_id due payload js j :
  j ∈ add_job (job_key note_id) due payload js →
  job_id j = job_key note_id →
  j = mkJob (job_key note_id) due payload.
Proof. apply add_job_key. Qed.

End Scheduler.

(** * The properties on the sample data *)

(** C1. The note is created and its reminder is set twice through
    [PUT /notes/<id>], to 09:00 and then to 09:00 the next day. Each request
    is refused at the commit, where line 164 has put a tuple in front of the
    DateTime column, so the scheduler is never called: no timer is registered
    and nothing is sent when the later time comes. When the note is created
    with its reminder at 09:00 and the update asks for 09:00 the next day,
    the one timer is still the first, and it fires at 09:00. *)
Theorem two_updates_register_no_timer :
  let W0 := run (rt:=Sample.smtp_up) empty_world
              [(Sample.at_0800, POST_notes "n1" Sample.plain)] in
  let W := run (rt:=Sample.smtp_up) empty_world Sample.two_updates in
  let V := run (rt:=Sample.smtp_up) Sample.rent_world
             [(Sample.at_0800 + Sample.minutes 30,
               PUT_note "n1" (Sample.remind_at "2025-01-02T09:00:00"))] in
  update_note (rt:=Sample.smtp_up) (Sample.at_0800 + Sample.minutes 1) "n1"
    (Sample.remind_at "2025-01-01T09:00:00") W0 = Raised StatementError
  ∧ update_note (rt:=Sample.smtp_up) (Sample.at_0800 + Sample.minutes 2) "n1"
      (Sample.remind_at "2025-01-02T09:00:00") W0 = Raised StatementError
  ∧ W = W0
  ∧ notes W !! "n1" = Some Sample.plain_note
  ∧ jobs W = []
  ∧ outbox (run (rt:=Sample.smtp_up) empty_world
              (Sample.two_updates ++ [(Sample.next_0900, Timer)])) = []
  ∧ jobs V = [mkJob "reminder_n1" Sample.at_0900 "n1"]
  ∧ outbox (run_pending (rt:=Sample.smtp_up) Sample.at_0900 V)
    = [Sample.rent_message]
  ∧ jobs (run_pending (rt:=Sample.smtp_up) Sample.at_0900 V) = [].
Proof. repeat split; vm_compute; reflexivity. Qed.

(** C2. On the stored "Pay rent" note, whose reminder is set to 09:00 for
    a@b.com, a payload with only 'title' is refused at the commit and the
    stored title stays: line 164 has assigned the tuple [(None,)] to
    [reminder_datetime], which the payload does not mention. A payload with
    'reminder_email' does not reach the attribute, which line 165 reads from
    'email'. *)
Theorem update_applies_no_field :
  update_note (rt:=Sample.smtp_up) Sample.at_0900 "n1" Sample.retitle
    Sample.rent_world = Raised StatementError
  ∧ Sample.retitle !! "title" = Some (PStr "Pay rent today")
  ∧ Sample.retitle !! "reminder_datetime" = None
  ∧ reminder_datetime (assign Sample.at_0900 Sample.retitle PNone Sample.rent_note)
    = PTuple [PNone]
  ∧ (title <$> notes (settle Sample.rent_world
                       (update_note (rt:=Sample.smtp_up) Sample.at_0900 "n1"
                          Sample.retitle Sample.rent_world)) !! "n1")
    = Some (PStr "Pay rent")
  ∧ update_note (rt:=Sample.smtp_up) Sample.at_0900 "n1" Sample.new_recipient
      Sample.rent_world = Raised StatementError
  ∧ Sample.new_recipient !! "reminder_email" = Some (PStr "c@d.com")
  ∧ reminder_email (assign Sample.at_0900 Sample.new_recipient PNone
                      Sample.rent_note)
    = PStr "a@b.com".
Proof. repeat split; vm_compute; reflexivity. Qed.

(** C3 as stated fails. The "Pay rent" note has its reminder set for 09:00.
    At 08:30 an update asks to turn the reminder off; it is refused at the
    commit, the note keeps [has_reminder] True and its timer, and at 09:00
    the reminder is sent. It is sent as well when the update of 08:30 only
    gives a new title. *)
Lemma update_keeps_reminder_armed :
  update_note (rt:=Sample.smtp_up) (Sample.at_0800 + Sample.minutes 30) "n1"
    Sample.switch_off Sample.rent_world = Raised StatementError
  ∧ (has_reminder <$> notes (settle Sample.rent_world
        (update_note (rt:=Sample.smtp_up) (Sample.at_0800 + Sample.minutes 30)
           "n1" Sample.switch_off Sample.rent_world)) !! "n1")
    = Some (PBool true)
  ∧ jobs (settle Sample.rent_world
        (update_note (rt:=Sample.smtp_up) (Sample.at_0800 + Sample.minutes 30)
           "n1" Sample.switch_off Sample.rent_world))
    = [mkJob "reminder_n1" Sample.at_0900 "n1"]
  ∧ outbox (run (rt:=Sample.smtp_up) Sample.rent_world Sample.switched_off)
    = [Sample.rent_message]
  ∧ outbox (run (rt:=Sample.smtp_up) Sample.rent_world
              [(Sample.at_0800 + Sample.minutes 30, PUT_note "n1" Sample.retitle);
               (Sample.at_0900, Timer)])
    = [Sample.rent_message].
Proof. repeat split; vm_compute; reflexivity. Qed.

(** C7 as stated fails. A note created with [has_reminder] true and neither
    a time nor a recipient is listed by [GET /reminders], with None for
    both. *)
Lemma get_reminders_lists_unarmed :
  ∃ W, create_note (rt:=Sample.smtp_up) Sample.at_0800 "n2" Sample.flag_only
         empty_world = Done W
    ∧ get_reminders W
      = [[("id", PStr "n2");
          ("title", PStr "Call Ann");
          ("content", PStr "about the keys");
          ("reminder_datetime", PNone);
          ("reminder_email", PNone);
          ("updated_at", PDatetime (Sample.at_0800 + 1))]].
Proof. eexists. split; [reflexivity|]. vm_compute. reflexivity. Qed.

(** ** Instances of the general statements *)

(** [POST /notes] with the "Pay rent" payload at 08:00 stores the note and
    registers its timer for 09:00. *)
Example rent_created :
  create_note (rt:=Sample.smtp_up) Sample.at_0800 "n1" Sample.rent empty_world
  = Done Sample.rent_world.
Proof. vm_compute. reflexivity. Qed.

Lemma dispatch_success_clears_witness :
  let W' := send_reminder_email (rt:=Sample.smtp_up) Sample.at_0900 "n1"
              Sample.rent_world in
  outbox W' = outbox Sample.rent_world ++ [reminder_message (rt:=Sample.smtp_up) Sample.rent_note]
  ∧ (∃ note', notes W' !! "n1" = Some note'
       ∧ has_reminder note' = PBool false
       ∧ reminder_datetime note' = PNone)
  ∧ (∃ fields, get_single_note (rt:=Sample.smtp_up) "n1" W' = Ok200 fields
       ∧ ("has_reminder", PBool false) ∈ fields
       ∧ ("reminder_datetime", PNone) ∈ fields).
Proof.
  apply (dispatch_success_clears (rt:=Sample.smtp_up) Sample.at_0900 "n1"
           Sample.rent_world Sample.rent_note); reflexivity.
Defined.

Lemma dispatch_transport_failure_witness :
  let W' := send_reminder_email (rt:=Sample.smtp_down) Sample.at_0900 "n1"
              Sample.rent_world in
  notes W' = notes Sample.rent_world
  ∧ notes W' !! "n1" = Some Sample.rent_note
  ∧ jobs W' = jobs Sample.rent_world
  ∧ outbox W' = outbox Sample.rent_world
  ∧ log W' = log Sample.rent_world ++ [send_failure_error "n1" "Connection refused"]
  ∧ ∀ other, get_single_note (rt:=Sample.smtp_down) other W'
             = get_single_note (rt:=Sample.smtp_down) other Sample.rent_world.
Proof.
  apply (dispatch_transport_failure (rt:=Sample.smtp_down) Sample.at_0900 "n1"
           Sample.rent_world Sample.rent_note "Connection refused"); reflexivity.
Defined.

Lemma dispatch_noop_witness :
  let W' := send_reminder_email (rt:=Sample.smtp_up) Sample.at_0900 "n7"
              Sample.rent_world in
  notes W' = notes Sample.rent_world
  ∧ jobs W' = jobs Sample.rent_world
  ∧ outbox W' = outbox Sample.rent_world
  ∧ log W' = log Sample.rent_world ++ [invalid_note_warning "n7"].
Proof.
  apply (dispatch_noop (rt:=Sample.smtp_up) Sample.at_0900 "n7" Sample.rent_world).
  left. reflexivity.
Defined.


Lemma trash_archive_keep_reminder_witness :
  ∃ Wt Wa nt na,
    delete_note Sample.at_0800 "n1" Sample.rent_world = Done Wt
    ∧ archive_note Sample.at_0800 "n1" Sample.rent_world = Done Wa
    ∧ jobs Wt = jobs Sample.rent_world ∧ jobs Wa = jobs Sample.rent_world
    ∧ notes Wt !! "n1" = Some nt ∧ notes Wa !! "n1" = Some na
    ∧ is_trashed nt = PBool true ∧ is_archived na = PBool true
    ∧ has_reminder nt = has_reminder Sample.rent_note
    ∧ reminder_datetime nt = reminder_datetime Sample.rent_note
    ∧ reminder_email nt = reminder_email Sample.rent_note
    ∧ has_reminder na = has_reminder Sample.rent_note
    ∧ reminder_datetime na = reminder_datetime Sample.rent_note
    ∧ reminder_email na = reminder_email Sample.rent_note
    ∧ (py_truthy (has_reminder Sample.rent_note) = true →
       py_truthy (reminder_email Sample.rent_note) = true →
       mail_send (Runtime:=Sample.smtp_up)
         (reminder_message (rt:=Sample.smtp_up) Sample.rent_note) = None →
       ∀ later W0, W0 = Wt ∨ W0 = Wa →
         let W1 := send_reminder_email (rt:=Sample.smtp_up) later "n1" W0 in
         outbox W1
         = outbox W0 ++ [reminder_message (rt:=Sample.smtp_up) Sample.rent_note]
         ∧ ∃ n1, notes W1 !! "n1" = Some n1
             ∧ has_reminder n1 = PBool false
             ∧ reminder_datetime n1 = PNone).
Proof.
  apply (trash_archive_keep_reminder (rt:=Sample.smtp_up) Sample.at_0800 "n1"
           Sample.rent_world Sample.rent_note).
  reflexivity.
Defined.

(** The start-up sweep at 09:00 on a table with a reminder two hours old and
    one thirty hours old: the first is sent and cleared, the second is left
    as it was. *)
Example sweep_two_hours_thirty_hours :
  let W' := check_missed_reminders (rt:=Sample.smtp_up) Sample.at_0900
              Sample.restart_world in
  (query_all (missed Sample.at_0900) Sample.restart_world).*1 = ["n1"]
  ∧ length (outbox W') = 1%nat
  ∧ (has_reminder <$> notes W' !! "n1") = Some (PBool false)
  ∧ notes W' !! "n2" = Some (Sample.overdue (Sample.minutes 1800)).
Proof. repeat split; vm_compute; reflexivity. Qed.

(** * The rest of the handlers *)

Section Views.
Context {rt : Runtime}.

Lemma note_fields_error row e :
  note_fields row = inl e ↔
  e = AttributeError
  ∧ py_truthy (reminder_datetime row.2) = true
  ∧ ∀ t, reminder_datetime row.2 ≠ PDatetime t.
Proof.
  unfold note_fields, isoformat_or_none.
  destruct (reminder_datetime row.2) as [|b|z|s|t|items|items|items]; simpl.
  - split; [done|]. by intros (_ & [=] & _).
  - destruct b; (split; [by intros [= <-]|]).
    + by intros (-> & _).
    + by intros (_ & [=] & _).
  - destruct (z =? 0); simpl; (split; [by intros [= <-]|]).
    + by intros (_ & [=] & _).
    + by intros (-> & _).
  - destruct (String.eqb s ""); simpl; (split; [by intros [= <-]|]).
    + by intros (_ & [=] & _).
    + by intros (-> & _).
  - split; [done|]. intros (_ & _ & Hne). by destruct (Hne t).
  - destruct items; (split; [by intros [= <-]|]).
    + by intros (_ & [=] & _).
    + by intros (-> & _).
  - destruct items; (split; [by intros [= <-]|]).
    + by intros (_ & [=] & _).
    + by intros (-> & _).
  - destruct items; (split; [by intros [= <-]|]).
    + by intros (_ & [=] & _).
    + by intros (-> & _).
Qed.

Lemma note_fields_id row entry :
  note_fields row = inr entry → field "id" entry = Some (PStr row.1).
Proof.
  unfold note_fields. destruct (isoformat_or_none _); [done|].
  by intros [= <-].
Qed.

Lemma ids_summary rows :
  ids (summary_fields <$> rows) = (λ row, PStr row.1) <$> rows.
Proof.
  induction rows as [|row rows IH]; [done|].
  rewrite !fmap_cons, <-IH. done.
Qed.

Lemma comprehension_ids rows : ∀ entries,
  comprehension rows = inr entries →
  ids entries = (λ row, PStr row.1) <$> rows.
Proof.
  induction rows as [|row rows IH]; intros entries; simpl.
  - by intros [= <-].
  - destruct (note_fields row) as [e|entry] eqn:Hrow; [done|].
    destruct (comprehension rows) as [e|rest]; [done|].
    intros [= <-]. unfold ids. simpl.
    rewrite (note_fields_id _ _ Hrow). simpl. f_equal. by apply IH.
Qed.

Lemma comprehension_raised rows e :
  comprehension rows = inl e →
  e = AttributeError ∧ ∃ row, row ∈ rows ∧ note_fields row = inl AttributeError.
Proof.
  induction rows as [|row rows IH]; simpl; [done|].
  destruct (note_fields row) as [e'|entry] eqn:Hrow.
  - apply note_fields_error in Hrow as Hrow'. destruct Hrow' as (-> & _).
    intros [= <-]. split; [done|]. exists row. split; [by left|done].
  - destruct (comprehension rows) as [e'|rest]; [|done].
    intros [= ->]. destruct (IH eq_refl) as (-> & row' & Hin & Hr).
    split; [done|]. exists row'. split; [by right|done].
Qed.

Lemma comprehension_raises rows row :
  row ∈ rows → note_fields row = inl AttributeError →
  comprehension rows = inl AttributeError.
Proof.
  induction rows as [|row' rows IH]; intros Hin Hr.
  - by apply elem_of_nil in Hin.
  - simpl. destruct (note_fields row') as [e'|entry] eqn:Hrow.
    + apply note_fields_error in Hrow as (-> & _). done.
    + apply elem_of_cons in Hin as [->|Hin]; [congruence|].
      by rewrite IH.
Qed.

Lemma comprehension_error rows e :
  comprehension rows = inl e ↔
  e = AttributeError ∧ ∃ row, row ∈ rows ∧ note_fields row = inl AttributeError.
Proof.
  split; [apply comprehension_raised|].
  intros (-> & row & Hin & Hr). by eapply comprehension_raises.
Qed.

Lemma listed_by_query p W note_id :
  PStr note_id ∈ (λ row : string * Note, PStr row.1) <$> query_all p W ↔
  ∃ note, notes W !! note_id = Some note ∧ p note = true.
Proof.
  rewrite list_elem_of_fmap. split.
  - intros ([k n] & [= ->] & Hin). exists n. by apply query_all_spec.
  - intros (n & Hn). exists (note_id, n). split; [done|]. by apply query_all_spec.
Qed.

Lemma get_notes_ids W entries :
  get_notes W = inr entries →
  ids entries = (λ row : string * Note, PStr row.1) <$> query_all active W.
Proof. apply comprehension_ids. Qed.

Lemma active_spec note :
  active note = true ↔
  col_is false (is_archived note) = true ∧ col_is false (is_trashed note) = true.
Proof. unfold active. apply andb_true_iff. Qed.

(** X1. When [GET /notes] answers, the ids it lists are exactly those of the
    rows with [is_archived == False] and [is_trashed == False], each once:
    it never shows a trashed or an archived note. *)
Theorem get_notes_lists_active W entries :
  get_notes W = inr entries →
  NoDup (ids entries)
  ∧ ∀ note_id,
      PStr note_id ∈ ids entries ↔
      ∃ note, notes W !! note_id = Some note
        ∧ col_is false (is_archived note) = true
        ∧ col_is false (is_trashed note) = true.
Proof.
  intros Hids%get_notes_ids. rewrite Hids. split.
  - pose proof (query_all_NoDup active W) as Hnd.
    assert ((λ row : string * Note, PStr row.1) <$> query_all active W
            = PStr <$> (query_all active W).*1) as ->
      by (by rewrite <-list_fmap_compose).
    apply NoDup_fmap_2; [|done]. by intros ?? [=].
  - intros note_id. rewrite listed_by_query.
    by setoid_rewrite active_spec.
Qed.

(** [GET /notes] can fail only at the call of [isoformat] on a
    [reminder_datetime] that is truthy and is not a datetime. *)
Lemma get_notes_error W e :
  get_notes W = inl e ↔
  e = AttributeError
  ∧ ∃ note_id note,
      notes W !! note_id = Some note
      ∧ col_is false (is_archived note) = true
      ∧ col_is false (is_trashed note) = true
      ∧ py_truthy (reminder_datetime note) = true
      ∧ ∀ t, reminder_datetime note ≠ PDatetime t.
Proof.
  unfold get_notes. rewrite comprehension_error. split.
  - intros (-> & [k n] & Hin & Hrow). split; [done|]. exists k, n.
    apply query_all_spec in Hin as [Hn Hact]. unfold active in Hact.
    apply andb_true_iff in Hact as [Ha Ht].
    apply note_fields_error in Hrow as (_ & Htr & Hne). done.
  - intros (-> & k & n & Hn & Ha & Ht & Htr & Hne). split; [done|].
    exists (k, n). split.
    + apply query_all_spec. split; [done|]. unfold active. by rewrite Ha, Ht.
    + by apply note_fields_error.
Qed.

End Views.

Section Lifecycle.
Context {rt : Runtime}.

Lemma col_is_exclusive v : col_is true v = true → col_is false v = true → False.
Proof.
  destruct v as [|[]|z| | | | |]; simpl; try done.
  intros ?%Z.eqb_eq ?%Z.eqb_eq. lia.
Qed.

Lemma listed_archived W note_id :
  PStr note_id ∈ ids (get_archived_notes W) ↔
  ∃ note, notes W !! note_id = Some note
    ∧ col_is true (is_archived note) = true
    ∧ col_is false (is_trashed note) = true.
Proof.
  unfold get_archived_notes. rewrite ids_summary, listed_by_query.
  unfold in_archive. by setoid_rewrite andb_true_iff.
Qed.

Lemma listed_trashed W note_id :
  PStr note_id ∈ ids (get_trashed_notes W) ↔
  ∃ note, notes W !! note_id = Some note ∧ col_is true (is_trashed note) = true.
Proof. unfold get_trashed_notes. by rewrite ids_summary, listed_by_query. Qed.

Lemma listed_notes W entries note_id :
  get_notes W = inr entries →
  PStr note_id ∈ ids entries ↔
  ∃ note, notes W !! note_id = Some note
    ∧ col_is false (is_archived note) = true
    ∧ col_is false (is_trashed note) = true.
Proof.
  intros ->%get_notes_ids. rewrite listed_by_query.
  by setoid_rewrite active_spec.
Qed.

Lemma listed_reminders W note_id :
  PStr note_id ∈ ids (get_reminders W) ↔
  ∃ note, notes W !! note_id = Some note
    ∧ col_is true (has_reminder note) = true
    ∧ col_is false (is_archived note) = true
    ∧ col_is false (is_trashed note) = true.
Proof.
  unfold get_reminders. rewrite ids_reminders, listed_by_query.
  unfold active_reminder. split.
  - intros (n & Hn & [[Hr Ha]%andb_true_iff Ht]%andb_true_iff). by exists n.
  - intros (n & Hn & Hr & Ha & Ht). exists n. by rewrite Hr, Ha, Ht.
Qed.

(** X3. No note is shown by two of [GET /notes], [GET /archives] and
    [GET /trash], and a note whose two flags are Booleans is selected by
    exactly one of the three filters. *)
Theorem views_disjoint W note_id :
  (PStr note_id ∈ ids (get_archived_notes W) →
   PStr note_id ∉ ids (get_trashed_notes W))
  ∧ (∀ entries, get_notes W = inr entries → PStr note_id ∈ ids entries →
       (PStr note_id ∉ ids (get_archived_notes W))
       ∧ PStr note_id ∉ ids (get_trashed_notes W))
  ∧ (∀ note a t, notes W !! note_id = Some note →
       is_archived note = PBool a → is_trashed note = PBool t →
       active note = true
       ∨ PStr note_id ∈ ids (get_archived_notes W)
       ∨ PStr note_id ∈ ids (get_trashed_notes W)).
Proof.
  split; [|split].
  - rewrite listed_archived, listed_trashed.
    intros (n & Hn & _ & Hf) (n' & Hn' & Ht).
    assert (n' = n) as -> by congruence. by eapply col_is_exclusive.
  - intros entries Hget. rewrite (listed_notes _ _ _ Hget).
    rewrite listed_archived, listed_trashed.
    intros (n & Hn & Ha & Ht). split.
    + intros (n' & Hn' & Ha' & _). assert (n' = n) as -> by congruence.
      by eapply col_is_exclusive.
    + intros (n' & Hn' & Ht'). assert (n' = n) as -> by congruence.
      by eapply col_is_exclusive.
  - intros note a t Hn Ha Ht. rewrite listed_archived, listed_trashed.
    unfold active. rewrite Ha, Ht. destruct t; simpl.
    + right. right. exists note. by rewrite Ht.
    + destruct a; simpl; [|by left].
      right. left. exists note. by rewrite Ha, Ht.
Qed.

(** X4. A row whose [is_trashed] is NULL (the column is nullable, line 53)
    is found by [GET /notes/<id>] and shown by none of [GET /notes],
    [GET /archives], [GET /trash] and [GET /reminders]. *)
Theorem null_flag_hides_note W note_id note :
  notes W !! note_id = Some note →
  is_trashed note = PNone →
  get_single_note note_id W ≠ Err404
  ∧ (PStr note_id ∉ ids (get_archived_notes W))
  ∧ (PStr note_id ∉ ids (get_trashed_notes W))
  ∧ (PStr note_id ∉ ids (get_reminders W))
  ∧ ∀ entries, get_notes W = inr entries → PStr note_id ∉ ids entries.
Proof.
  intros Hn Hnull. split; [|split; [|split; [|split]]].
  - unfold get_single_note. rewrite Hn. by destruct (isoformat_or_none _).
  - rewrite listed_archived. intros (n & Hn' & _ & Ht).
    assert (n = note) as -> by congruence. by rewrite Hnull in Ht.
  - rewrite listed_trashed. intros (n & Hn' & Ht).
    assert (n = note) as -> by congruence. by rewrite Hnull in Ht.
  - rewrite listed_reminders. intros (n & Hn' & _ & _ & Ht).
    assert (n = note) as -> by congruence. by rewrite Hnull in Ht.
  - intros entries Hget. rewrite (listed_notes _ _ _ Hget).
    intros (n & Hn' & _ & Ht).
    assert (n = note) as -> by congruence. by rewrite Hnull in Ht.
Qed.

Lemma modify_done f note_id W note :
  notes W !! note_id = Some note →
  modify f note_id W = Done (set_notes W (<[note_id := f note]> (notes W))).
Proof. intros Hn. unfold modify. by rewrite Hn. Qed.

(** X5. [DELETE /notes/<id>] on an existing note moves it to the trash
    whatever its flags were: afterwards [GET /trash] shows it, [GET /notes],
    [GET /archives] and [GET /reminders] do not, and every other row is as
    before. *)
Theorem delete_note_moves_to_trash now note_id W note :
  notes W !! note_id = Some note →
  ∃ W', delete_note now note_id W = Done W'
    ∧ PStr note_id ∈ ids (get_trashed_notes W')
    ∧ (PStr note_id ∉ ids (get_archived_notes W'))
    ∧ (PStr note_id ∉ ids (get_reminders W'))
    ∧ (∀ entries, get_notes W' = inr entries → PStr note_id ∉ ids entries)
    ∧ (∀ other, other ≠ note_id → notes W' !! other = notes W !! other).
Proof.
  intros Hn. eexists. split; [by apply modify_done|].
  split; [|split; [|split; [|split]]].
  - rewrite listed_trashed. exists (trashed now note). simpl.
    by rewrite lookup_insert_eq.
  - rewrite listed_archived. simpl. rewrite lookup_insert_eq.
    by intros (n & [= <-] & _ & ?).
  - rewrite listed_reminders. simpl. rewrite lookup_insert_eq.
    by intros (n & [= <-] & _ & _ & ?).
  - intros entries Hget. rewrite (listed_notes _ _ _ Hget). simpl.
    rewrite lookup_insert_eq. by intros (n & [= <-] & _ & ?).
  - intros other Hne. simpl. by rewrite lookup_insert_ne.
Qed.

(** X6. [PUT /notes/<id>/archive] on an existing note moves it to the
    archive, out of the trash if it was there: afterwards [GET /archives]
    shows it, [GET /notes] and [GET /trash] do not, and every other row is
    as before. *)
Theorem archive_note_moves_to_archive now note_id W note :
  notes W !! note_id = Some note →
  ∃ W', archive_note now note_id W = Done W'
    ∧ PStr note_id ∈ ids (get_archived_notes W')
    ∧ (PStr note_id ∉ ids (get_trashed_notes W'))
    ∧ (PStr note_id ∉ ids (get_reminders W'))
    ∧ (∀ entries, get_notes W' = inr entries → PStr note_id ∉ ids entries)
    ∧ (∀ other, other ≠ note_id → notes W' !! other = notes W !! other).
Proof.
  intros Hn. eexists. split; [by apply modify_done|].
  split; [|split; [|split; [|split]]].
  - rewrite listed_archived. exists (archived now note). simpl.
    by rewrite lookup_insert_eq.
  - rewrite listed_trashed. simpl. rewrite lookup_insert_eq.
    by intros (n & [= <-] & ?).
  - rewrite listed_reminders. simpl. rewrite lookup_insert_eq.
    by intros (n & [= <-] & _ & ? & _).
  - intros entries Hget. rewrite (listed_notes _ _ _ Hget). simpl.
    rewrite lookup_insert_eq. by intros (n & [= <-] & ? & _).
  - intros other Hne. simpl. by rewrite lookup_insert_ne.
Qed.

(** X7. [PUT /notes/<id>/restore] on an existing note takes it out of the
    trash and out of the archive: afterwards neither [GET /trash] nor
    [GET /archives] shows it, [GET /notes] shows it whenever it answers, and
    [GET /reminders] shows it exactly when its [has_reminder] is True. *)
Theorem restore_note_returns_to_notes now note_id W note :
  notes W !! note_id = Some note →
  ∃ W', restore_note now note_id W = Done W'
    ∧ (PStr note_id ∉ ids (get_trashed_notes W'))
    ∧ (PStr note_id ∉ ids (get_archived_notes W'))
    ∧ (∀ entries, get_notes W' = inr entries → PStr note_id ∈ ids entries)
    ∧ (PStr note_id ∈ ids (get_reminders W') ↔
       col_is true (has_reminder note) = true)
    ∧ (∀ other, other ≠ note_id → notes W' !! other = notes W !! other).
Proof.
  intros Hn. eexists. split; [by apply modify_done|].
  split; [|split; [|split; [|split]]].
  - rewrite listed_trashed. simpl. rewrite lookup_insert_eq.
    by intros (n & [= <-] & ?).
  - rewrite listed_archived. simpl. rewrite lookup_insert_eq.
    by intros (n & [= <-] & ? & _).
  - intros entries Hget. rewrite (listed_notes _ _ _ Hget).
    exists (restored now note). simpl. by rewrite lookup_insert_eq.
  - rewrite listed_reminders. simpl. rewrite lookup_insert_eq. split.
    + by intros (n & [= <-] & ? & _).
    + intros Hr. by exists (restored now note).
  - intros other Hne. simpl. by rewrite lookup_insert_ne.
Qed.

End Lifecycle.

Section Removal.
Context {rt : Runtime}.

(** X8. Restoring does not undo trashing or archiving: after
    [DELETE /notes/<id>] or [PUT /notes/<id>/archive] followed by
    [PUT /notes/<id>/restore], the note has [is_pinned], [is_archived] and
    [is_trashed] all False, whatever they were, and its other columns as
    before, [updated_at] apart. *)
Theorem restore_after_trash_drops_pin t1 t2 note_id W W1 note :
  notes W !! note_id = Some note →
  delete_note t1 note_id W = Done W1 ∨ archive_note t1 note_id W = Done W1 →
  ∃ W2, restore_note t2 note_id W1 = Done W2
    ∧ notes W2 !! note_id
      = Some {| title := title note;
                content := content note;
                is_pinned := PBool false;
                has_reminder := has_reminder note;
                reminder_datetime := reminder_datetime note;
                reminder_email := reminder_email note;
                created_at := created_at note;
                updated_at := t2;
                is_archived := PBool false;
                is_trashed := PBool false |}.
Proof.
  intros Hn Hfirst.
  assert (∃ f, W1 = set_notes W (<[note_id := f note]> (notes W))
            ∧ restored t2 (f note) = restored t2 (trashed t1 note))
    as (f & -> & Hf).
  { unfold delete_note, archive_note, modify in Hfirst. rewrite Hn in Hfirst.
    destruct Hfirst as [[= <-]|[= <-]]; by eexists. }
  eexists. split.
  - apply modify_done. simpl. apply lookup_insert_eq.
  - simpl. rewrite lookup_insert_eq, Hf. done.
Qed.

(** X9. After [DELETE /notes/<id>/permanent-delete] of an existing note,
    every handler called with that id answers 404, the other rows and the
    table of timers are as before, and a dispatch for that id sends nothing:
    it only logs the warning. *)
Theorem permanent_delete_then_404 note_id W note :
  notes W !! note_id = Some note →
  ∃ W', permanent_delete_note note_id W = Done W'
    ∧ get_single_note note_id W' = Err404
    ∧ (∀ now data, update_note now note_id data W' = NotFound)
    ∧ (∀ now, delete_note now note_id W' = NotFound
              ∧ archive_note now note_id W' = NotFound
              ∧ restore_note now note_id W' = NotFound)
    ∧ permanent_delete_note note_id W' = NotFound
    ∧ jobs W' = jobs W
    ∧ (∀ other, other ≠ note_id → notes W' !! other = notes W !! other)
    ∧ (∀ later, send_reminder_email later note_id W'
                = logger (invalid_note_warning note_id) W').
Proof.
  intros Hn. unfold permanent_delete_note at 1. rewrite Hn.
  eexists. split; [done|].
  assert (Hgone : notes (set_notes W (delete note_id (notes W))) !! note_id = None)
    by (simpl; apply lookup_delete_eq).
  split; [|split; [|split; [|split; [|split; [|split]]]]].
  - unfold get_single_note. by rewrite Hgone.
  - intros now data. unfold update_note. by rewrite Hgone.
  - intros now. unfold delete_note, archive_note, restore_note, modify.
    by rewrite Hgone.
  - unfold permanent_delete_note. by rewrite Hgone.
  - done.
  - intros other Hne. simpl. by rewrite lookup_delete_ne.
  - intros later. unfold send_reminder_email. by rewrite Hgone.
Qed.

End Removal.

Section Creation.
Context {rt : Runtime}.

Lemma parse_reminder_datetime_ok data :
  (∃ dt, parse_reminder_datetime data = inr dt) ↔
  py_truthy (dict_get_none data "reminder_datetime") = false
  ∨ ∃ s t, data !! "reminder_datetime" = Some (PStr s)
       ∧ fromisoformat s = Some t.
Proof.
  unfold parse_reminder_datetime, dict_get_none, dict_get.
  destruct (data !! "reminder_datetime") as [v|]; simpl.
  - destruct (py_truthy v) eqn:Htr.
    + destruct v as [|b|z|s|t|items|items|items];
        try (split; [by intros [? [=]]|by intros [[=]|(? & ? & [=] & _)]]).
      destruct (fromisoformat s) as [t|] eqn:Hs.
      * split; [|by eauto]. intros _. right. by exists s, t.
      * split; [by intros [? [=]]|].
        intros [[=]|(s' & t & [= <-] & Ht)]. congruence.
    + split; [by left|by eauto].
  - split; [by left|by eauto].
Qed.

Lemma not_null_spec v : not_null v = true ↔ v ≠ PNone.
Proof. by destruct v. Qed.

(** What the flush keeps of the object: each column holds what its type
    makes of the attribute, the DateTime column the datetime or None that was
    bound, and the two timestamps are the object's. *)
Lemma flush_columns note row :
  flush note = inr row →
  bind_string (Some 100%nat) (title note) = Some (title row)
  ∧ bind_string None (content note) = Some (content row)
  ∧ bind_boolean (is_pinned note) = Some (is_pinned row)
  ∧ bind_boolean (has_reminder note) = Some (has_reminder row)
  ∧ reminder_datetime row = reminder_datetime note
  ∧ (reminder_datetime note = PNone ∨ ∃ d, reminder_datetime note = PDatetime d)
  ∧ bind_string (Some 120%nat) (reminder_email note) = Some (reminder_email row)
  ∧ bind_boolean (is_archived note) = Some (is_archived row)
  ∧ bind_boolean (is_trashed note) = Some (is_trashed row)
  ∧ created_at row = created_at note
  ∧ updated_at row = updated_at note
  ∧ nullable_ok row = true.
Proof.
  unfold flush. destruct (bind_row note) as [row'|] eqn:Hrow; [|done].
  destruct (nullable_ok row') eqn:Hok; [|done]. intros [= ->].
  destruct (bind_row_datetime _ _ Hrow) as [Hrd Hty].
  unfold bind_row in Hrow. simplify_option_eq. done.
Qed.

Lemma flush_typed note :
  (∃ s, title note = PStr s ∧ (String.length s ≤ 100)%nat) →
  (∃ s, content note = PStr s) →
  (∃ b, is_pinned note = PBool b) →
  (∃ b, has_reminder note = PBool b) →
  (reminder_datetime note = PNone ∨ ∃ d, reminder_datetime note = PDatetime d) →
  (reminder_email note = PNone
   ∨ ∃ s, reminder_email note = PStr s ∧ (String.length s ≤ 120)%nat) →
  (∃ b, is_archived note = PBool b) →
  (∃ b, is_trashed note = PBool b) →
  flush note = inr note.
Proof.
  intros (t & Ht & Htl) (c & Hc) (p & Hp) (h & Hh) Hrd He (a & Ha) (tr & Htr).
  unfold flush, bind_row. rewrite Ht, Hc, Hp, Hh, Ha, Htr.
  rewrite (bind_string_fits (Some 100%nat) t Htl).
  rewrite (bind_string_fits None c I), !bind_boolean_bool. simpl.
  assert (bind_datetime (reminder_datetime note) = Some (reminder_datetime note))
    as -> by (destruct Hrd as [->|[d ->]]; done).
  simpl.
  assert (bind_string (Some 120%nat) (reminder_email note)
          = Some (reminder_email note)) as ->.
  { destruct He as [->|(e & -> & Hel)]; [apply bind_string_null|].
    by apply bind_string_fits. }
  simpl. unfold nullable_ok. simpl. rewrite <-Ht, <-Hc, <-Hp, <-Hh, <-Ha, <-Htr.
  clear. destruct note. reflexivity.
Qed.

End Creation.

Section CreateNote.
Context {rt : Runtime}.

(** X10. [POST /notes] without 'title' raises KeyError('title'), and with
    'title' but without 'content' KeyError('content'), whatever else the
    payload holds. It commits only if 'title' and 'content' are there and
    not null, 'reminder_datetime' is absent, falsy or a string
    [fromisoformat] accepts, and the id is new. It does commit when moreover
    the payload is typed as the columns are: 'title' a string of at most 100
    characters, 'content' a string, each flag absent, null or a Boolean, and
    'reminder_email' absent, null or a string of at most 120 characters. *)
Theorem create_note_outcome now new_id data W :
  (data !! "title" = None →
   create_note now new_id data W = Raised (KeyError "title"))
  ∧ (is_Some (data !! "title") → data !! "content" = None →
     create_note now new_id data W = Raised (KeyError "content"))
  ∧ ((∃ W', create_note now new_id data W = Done W') →
     (∃ t c, data !! "title" = Some t ∧ t ≠ PNone
          ∧ data !! "content" = Some c ∧ c ≠ PNone)
     ∧ (py_truthy (dict_get_none data "reminder_datetime") = false
        ∨ ∃ s d, data !! "reminder_datetime" = Some (PStr s)
             ∧ fromisoformat s = Some d)
     ∧ notes W !! new_id = None)
  ∧ (∀ t c,
       data !! "title" = Some (PStr t) → (String.length t ≤ 100)%nat →
       data !! "content" = Some (PStr c) →
       (py_truthy (dict_get_none data "reminder_datetime") = false
        ∨ ∃ s d, data !! "reminder_datetime" = Some (PStr s)
             ∧ fromisoformat s = Some d) →
       (∀ key, key ∈ ["is_pinned"; "has_reminder"; "is_archived"; "is_trashed"] →
          data !! key = None ∨ data !! key = Some PNone
          ∨ ∃ b, data !! key = Some (PBool b)) →
       (data !! "reminder_email" = None ∨ data !! "reminder_email" = Some PNone
        ∨ ∃ e, data !! "reminder_email" = Some (PStr e)
            ∧ (String.length e ≤ 120)%nat) →
       notes W !! new_id = None →
       ∃ W', create_note now new_id data W = Done W').
Proof.
  split; [|split; [|split]].
  - intros Ht. unfold create_note. by rewrite Ht.
  - intros [t Ht] Hc. unfold create_note. by rewrite Ht, Hc.
  - rewrite <-parse_reminder_datetime_ok.
    intros [W' (t & c & dt & row & Ht & Hc & Hp & Hrow & Hfresh & _)%create_note_done].
    apply flush_columns in Hrow
      as (Hbt & Hbc & _ & _ & _ & _ & _ & _ & _ & _ & _ & Hok).
    unfold nullable_ok in Hok. apply andb_true_iff in Hok as [Hnt Hnc].
    simpl in Hbt, Hbc.
    split; [|split; [by exists dt|done]].
    exists t, c. split; [done|]. split; [|split; [done|]].
    + intros ->. rewrite bind_string_null in Hbt. injection Hbt as Hbt.
      by rewrite <-Hbt in Hnt.
    + intros ->. rewrite bind_string_null in Hbc. injection Hbc as Hbc.
      by rewrite <-Hbc in Hnc.
  - intros t c Ht Htl Hc Hrd Hflags He Hfresh.
    apply parse_reminder_datetime_ok in Hrd as [dt Hp].
    assert (Hflag : ∀ key,
              key ∈ ["is_pinned"; "has_reminder"; "is_archived"; "is_trashed"] →
              ∃ b, default_false (dict_get data key (PBool false)) = PBool b).
    { intros key Hin. unfold dict_get.
      destruct (Hflags key Hin) as [->|[->|[b ->]]]; by eexists. }
    unfold create_note. rewrite Ht, Hc, Hp.
    rewrite flush_typed; [rewrite Hfresh; by eexists|..]; simpl.
    + by exists t.
    + by exists c.
    + apply Hflag. repeat constructor.
    + apply Hflag. repeat constructor.
    + by apply parse_reminder_datetime_value in Hp.
    + unfold dict_get_none, dict_get.
      destruct He as [->|[->|(e & -> & Hel)]]; [by left|by left|].
      right. by exists e.
    + apply Hflag. repeat constructor.
    + apply Hflag. repeat constructor.
Qed.

(** X11. A note that [POST /notes] committed is found by [GET /notes/<id>]:
    the answer is 200 with the note's id, 'created_at' the creation time and
    'updated_at' the next reading of the clock, a 'title' and a 'content'
    that are the payload's when these are strings that fit, and a
    'has_reminder' that is False when the payload has none or null and the
    payload's when it is a Boolean. Every other id is answered as before. *)
Theorem create_then_get now new_id data W W' :
  create_note now new_id data W = Done W' →
  (∃ fields, get_single_note new_id W' = Ok200 fields
     ∧ field "id" fields = Some (PStr new_id)
     ∧ field "created_at" fields = Some (PStr (isoformat now))
     ∧ field "updated_at" fields = Some (PStr (isoformat (tick now)))
     ∧ (∀ s, data !! "title" = Some (PStr s) → (String.length s ≤ 100)%nat →
          field "title" fields = Some (PStr s))
     ∧ (∀ s, data !! "content" = Some (PStr s) →
          field "content" fields = Some (PStr s))
     ∧ (data !! "has_reminder" = None ∨ data !! "has_reminder" = Some PNone →
          field "has_reminder" fields = Some (PBool false))
     ∧ (∀ b, data !! "has_reminder" = Some (PBool b) →
          field "has_reminder" fields = Some (PBool b)))
  ∧ ∀ other, other ≠ new_id →
      get_single_note other W' = get_single_note other W.
Proof.
  intros (t & c & dt & row & Ht & Hc & Hp & Hrow & _ & ->)%create_note_done.
  apply flush_columns in Hrow
    as (Hbt & Hbc & _ & Hbh & Hrd & Hty & _ & _ & _ & Hca & Hua & _).
  simpl in *. split.
  - unfold get_single_note. rewrite schedule_if_set_notes. simpl.
    rewrite lookup_insert_eq.
    assert (∃ rd, isoformat_or_none (reminder_datetime row) = inr rd)
      as [rd ->].
    { rewrite Hrd. destruct Hty as [->|[d ->]]; by eexists. }
    eexists. split; [done|]. split; [done|].
    split; [by rewrite Hca|]. split; [by rewrite Hua|].
    split; [|split; [|split]].
    + intros s Hs Hl. assert (t = PStr s) as -> by congruence.
      rewrite bind_string_fits in Hbt by done. by injection Hbt as <-.
    + intros s Hs. assert (c = PStr s) as -> by congruence.
      rewrite bind_string_fits in Hbc by done. by injection Hbc as <-.
    + intros Hh. unfold dict_get in Hbh.
      destruct Hh as [Hh|Hh]; rewrite Hh in Hbh; simpl in Hbh;
        rewrite bind_boolean_bool in Hbh; by injection Hbh as <-.
    + intros b Hh. unfold dict_get in Hbh. rewrite Hh in Hbh. simpl in Hbh.
      rewrite bind_boolean_bool in Hbh. by injection Hbh as <-.
  - intros other Hne. unfold get_single_note.
    rewrite schedule_if_set_notes. simpl. by rewrite lookup_insert_ne.
Qed.

(** X12. [has_reminder] defaults to False: a payload without the key
    'has_reminder' creates a note whose reminder is off even when it gives a
    'reminder_datetime' and a 'reminder_email'. No timer is registered, and a
    dispatch for the note sends nothing. *)
Theorem create_without_flag_never_schedules now new_id data W W' :
  data !! "has_reminder" = None →
  create_note now new_id data W = Done W' →
  jobs W' = jobs W
  ∧ (has_reminder <$> notes W' !! new_id) = Some (PBool false)
  ∧ ∀ later, outbox (send_reminder_email later new_id W') = outbox W'.
Proof.
  intros Hflag (t & c & dt & row & _ & _ & _ & Hrow & _ & ->)%create_note_done.
  assert (has_reminder row = PBool false) as Hoff.
  { apply flush_columns in Hrow as (_ & _ & _ & Hbh & _). simpl in Hbh.
    unfold dict_get in Hbh. rewrite Hflag in Hbh. simpl in Hbh.
    rewrite bind_boolean_bool in Hbh. by injection Hbh as <-. }
  unfold schedule_if_set. rewrite Hoff.
  change (py_truthy (PBool false) && _) with false. cbv iota.
  assert (Hst : notes (set_notes W (<[new_id := row]> (notes W))) !! new_id
                = Some row)
    by apply lookup_insert_eq.
  split; [done|]. split; [by rewrite Hst, <-Hoff|].
  intros later. rewrite send_reminder_email_invalid; [done|].
  intros note. rewrite Hst. intros [= <-]. by rewrite Hoff.
Qed.

(** X13. When the payload's 'has_reminder' is truthy and its
    'reminder_datetime' is a non-empty string, a committed [POST /notes]
    stores the parsed datetime itself and registers, under the note's key,
    one timer with that datetime as due time and the note's id as argument;
    timers under other keys are neither added nor removed. *)
Theorem create_schedules_at_parsed_time now new_id data W W' s :
  py_truthy (dict_get data "has_reminder" (PBool false)) = true →
  data !! "reminder_datetime" = Some (PStr s) →
  s ≠ "" →
  create_note now new_id data W = Done W' →
  ∃ d, fromisoformat s = Some d
    ∧ (reminder_datetime <$> notes W' !! new_id) = Some (PDatetime d)
    ∧ mkJob (job_key new_id) d new_id ∈ jobs W'
    ∧ (∀ j, j ∈ jobs W' → job_id j = job_key new_id →
         j = mkJob (job_key new_id) d new_id)
    ∧ (∀ j, job_id j ≠ job_key new_id → j ∈ jobs W' ↔ j ∈ jobs W).
Proof.
  intros Hflag Hrd Hs
    (t & c & dt & row & _ & _ & Hp & Hrow & _ & ->)%create_note_done.
  unfold parse_reminder_datetime, dict_get_none, dict_get in Hp.
  rewrite Hrd in Hp. simpl in Hp.
  assert (String.eqb s "" = false) as Hne by (by apply String.eqb_neq).
  rewrite Hne in Hp. simpl in Hp.
  destruct (fromisoformat s) as [d|]; [|done]. injection Hp as <-.
  exists d. split; [done|].
  apply flush_columns in Hrow as (_ & _ & _ & Hbh & Hdt & _). simpl in Hbh, Hdt.
  assert (has_reminder row = PBool true) as Hon.
  { assert (default_false (dict_get data "has_reminder" (PBool false))
            = dict_get data "has_reminder" (PBool false)) as Hdef
      by (by destruct (dict_get data "has_reminder" (PBool false))).
    rewrite Hdef in Hbh.
    apply bind_boolean_typed in Hbh as [[Hnull _]|[_ ->]];
      [by rewrite Hnull in Hflag|by rewrite Hflag]. }
  unfold schedule_if_set. rewrite Hon, Hdt. simpl.
  rewrite lookup_insert_eq. simpl. rewrite Hdt.
  split; [done|]. split; [|split].
  - unfold add_job. apply elem_of_app. right. by apply list_elem_of_singleton.
  - intros j Hin Hk. by eapply add_job_key.
  - intros j Hk. unfold add_job, cancel.
    rewrite elem_of_app, list_elem_of_filter, list_elem_of_singleton. split.
    + intros [[_ Hin]| ->]; [done|]. by destruct Hk.
    + intros Hin. by left.
Qed.

End CreateNote.

Section UpdateNote.
Context {rt : Runtime}.

(** X14. What [PUT /notes/<id>] answers. It is 404 exactly when the id has
    no row. On an existing row the request raises, and which error depends
    on the payload's 'reminder_datetime' alone: a truthy value that is not a
    string is refused by [fromisoformat] with a TypeError, a non-empty string
    it cannot parse with a ValueError, and in every other case (the key
    absent, a falsy value, a string that parses) the commit refuses the tuple
    of line 164 with a StatementError. In each case [GET /notes/<id>] answers
    afterwards what it answered before. *)
Theorem update_note_outcome now note_id data W :
  (update_note now note_id data W = NotFound ↔ notes W !! note_id = None)
  ∧ (∀ note, notes W !! note_id = Some note →
       (∀ v, data !! "reminder_datetime" = Some v → py_truthy v = true →
             (∀ s, v ≠ PStr s) →
             update_note now note_id data W = Raised TypeError)
       ∧ (∀ s, data !! "reminder_datetime" = Some (PStr s) → s ≠ "" →
             fromisoformat s = None →
             update_note now note_id data W = Raised ValueError)
       ∧ (py_truthy (dict_get_none data "reminder_datetime") = false
          ∨ (∃ s d, data !! "reminder_datetime" = Some (PStr s)
                ∧ fromisoformat s = Some d) →
          update_note now note_id data W = Raised StatementError))
  ∧ get_single_note note_id (settle W (update_note now note_id data W))
    = get_single_note note_id W.
Proof.
  split; [|split].
  - destruct (notes W !! note_id) as [note|] eqn:Hn.
    + rewrite (update_note_raises _ _ _ _ _ Hn).
      by destruct (parse_reminder_datetime data).
    + unfold update_note. by rewrite Hn.
  - intros note Hn. rewrite (update_note_raises _ _ _ _ _ Hn).
    split; [|split].
    + intros v Hv Htruthy Hstr.
      unfold parse_reminder_datetime, dict_get_none, dict_get.
      rewrite Hv, Htruthy. destruct v; try done. by destruct (Hstr s).
    + intros s Hs Hne Hparse.
      unfold parse_reminder_datetime, dict_get_none, dict_get. rewrite Hs.
      simpl. assert (String.eqb s "" = false) as -> by (by apply String.eqb_neq).
      simpl. by rewrite Hparse.
    + intros [dt ->]%parse_reminder_datetime_ok. done.
  - by rewrite update_note_settle.
Qed.

End UpdateNote.

Section Runs.
Context {rt : Runtime}.

Lemma foldl_invariant {B} (I : World → Prop) (f : World → B → World) l : ∀ W,
  (∀ W' b, I W' → I (f W' b)) → I W → I (foldl f W l).
Proof. induction l as [|b l IH]; intros W Hf HW; [done|]. simpl. auto. Qed.

Lemma run_invariant (I : World → Prop) evs W :
  (∀ W' ev, I W' → I (step W' ev)) → I W → I (run W evs).
Proof. intros. unfold run. by apply foldl_invariant. Qed.

(** What dispatch does to a row: nothing, or it clears the reminder of the
    row it was called for, whose recipient is then not empty. *)
Lemma send_reminder_email_rows now note_id W k :
  notes (send_reminder_email now note_id W) !! k = notes W !! k
  ∨ ∃ note, notes W !! k = Some note
      ∧ py_truthy (reminder_email note) = true
      ∧ notes (send_reminder_email now note_id W) !! k
        = Some (clear_reminder now note).
Proof.
  destruct (decide (k = note_id)) as [->|Hne];
    [|left; by apply send_reminder_email_other].
  unfold send_reminder_email.
  destruct (notes W !! note_id) as [note|] eqn:Hn; [|by left].
  destruct (py_truthy (has_reminder note)); [|by left]. simpl.
  destruct (py_truthy (reminder_email note)) eqn:He; [|by left].
  destruct (mail_send (reminder_message note)); [by left|].
  right. exists note. simpl. by rewrite lookup_insert_eq.
Qed.

Lemma send_reminder_email_outbox now note_id W :
  outbox (send_reminder_email now note_id W) = outbox W
  ∨ ∃ note, notes W !! note_id = Some note
      ∧ py_truthy (reminder_email note) = true
      ∧ outbox (send_reminder_email now note_id W)
        = outbox W ++ [reminder_message note].
Proof.
  unfold send_reminder_email.
  destruct (notes W !! note_id) as [note|] eqn:Hn; [|by left].
  destruct (py_truthy (has_reminder note)); [|by left]. simpl.
  destruct (py_truthy (reminder_email note)) eqn:He; [|by left].
  destruct (mail_send (reminder_message note)); [by left|].
  right. by exists note.
Qed.

(** X17. A reminder is sent once: after a dispatch that sent the message,
    any further dispatch for the same note sends nothing and leaves the rows
    as they are. *)
Theorem dispatch_twice_sends_once t1 t2 note_id W note :
  notes W !! note_id = Some note →
  py_truthy (has_reminder note) = true →
  py_truthy (reminder_email note) = true →
  mail_send (reminder_message note) = None →
  let W1 := send_reminder_email t1 note_id W in
  outbox W1 = outbox W ++ [reminder_message note]
  ∧ outbox (send_reminder_email t2 note_id W1) = outbox W1
  ∧ notes (send_reminder_email t2 note_id W1) = notes W1.
Proof.
  intros Hn Hr He Hs W1. subst W1.
  rewrite (send_reminder_email_sent _ _ _ _ Hn Hr He Hs).
  split; [done|].
  rewrite send_reminder_email_invalid; [done|].
  intros n. simpl. rewrite lookup_insert_eq. by intros [= <-].
Qed.

(** X18. A reminder the start-up sweep has sent is not picked up by a later
    sweep: once the sweep at [t1] has selected a note with a non-empty
    recipient whose message the transport accepts, no sweep at any time on
    the resulting state selects that note. *)
Theorem swept_reminder_not_selected_again t1 t2 note_id W note :
  (note_id, note) ∈ query_all (missed t1) W →
  py_truthy (reminder_email note) = true →
  mail_send (reminder_message note) = None →
  ∀ note', (note_id, note') ∉ query_all (missed t2) (check_missed_reminders t1 W).
Proof.
  intros Hin He Hs note' Hin'.
  apply query_all_spec in Hin as Hsel. destruct Hsel as [Hn Hm].
  apply query_all_spec in Hin' as [Hn' Hm'].
  unfold check_missed_reminders in Hn'.
  rewrite (sweep_dispatches t1 _ W note_id note) in Hn';
    [|apply query_all_NoDup|done..].
  assert (py_truthy (has_reminder note) = true) as Hr.
  { apply missed_spec in Hm as [Hh _].
    destruct (has_reminder note) as [|[]|z| | | | |]; try done.
    simpl in Hh. apply Z.eqb_eq in Hh as ->. done. }
  unfold dispatched, to_send in Hn'. rewrite Hr, He, Hs in Hn'. simpl in Hn'.
  injection Hn' as <-. done.
Qed.

Lemma settle_invariant (I : World → Prop) W o :
  I W → (∀ W', o = Done W' → I W') → I (settle W o).
Proof. intros HW Ho. destruct o; simpl; auto. Qed.

Lemma rows_not_null_insert W k note :
  rows_not_null W → nullable_ok note = true →
  rows_not_null (set_notes W (<[k := note]> (notes W))).
Proof.
  intros HW Hok k' n. simpl. destruct (decide (k = k')) as [->|Hne].
  - rewrite lookup_insert_eq. by intros [= <-].
  - rewrite lookup_insert_ne by done. apply HW.
Qed.

Lemma rows_not_null_dispatch now note_id W :
  rows_not_null W → rows_not_null (send_reminder_email now note_id W).
Proof.
  intros HW k n.
  destruct (send_reminder_email_rows now note_id W k) as [->|(n0 & Hn0 & _ & ->)].
  - apply HW.
  - intros [= <-]. apply (HW _ _ Hn0).
Qed.

Lemma rows_not_null_step W ev : rows_not_null W → rows_not_null (step W ev).
Proof.
  intros HW. destruct ev as [now [new_id data|note_id data|note_id|note_id
    |note_id|note_id| |]]; unfold step; simpl.
  - apply settle_invariant; [done|].
    intros W' (t & c & dt & row & _ & _ & _ & Hrow & _ & ->)%create_note_done.
    intros k n. rewrite schedule_if_set_notes. revert k n.
    apply rows_not_null_insert; [done|].
    by apply flush_columns in Hrow as (_ & _ & _ & _ & _ & _ & _ & _ & _ & _ & _ & Hok).
  - by rewrite update_note_settle.
  - unfold delete_note, modify. destruct (notes W !! note_id) as [n|] eqn:Hn; [|done].
    simpl. apply rows_not_null_insert; [done|]. apply (HW _ _ Hn).
  - unfold archive_note, modify. destruct (notes W !! note_id) as [n|] eqn:Hn; [|done].
    simpl. apply rows_not_null_insert; [done|]. apply (HW _ _ Hn).
  - unfold restore_note, modify. destruct (notes W !! note_id) as [n|] eqn:Hn; [|done].
    simpl. apply rows_not_null_insert; [done|]. apply (HW _ _ Hn).
  - unfold permanent_delete_note. destruct (notes W !! note_id); [|done].
    simpl. intros k n' Hk. simpl in Hk.
    apply lookup_delete_Some in Hk as [_ Hk]. by eapply HW.
  - unfold run_pending. apply foldl_invariant; [|done].
    intros W' j. apply rows_not_null_dispatch.
  - unfold check_missed_reminders. apply foldl_invariant; [|done].
    intros W' row HW'. unfold sweep_step. intros k n. simpl.
    by apply rows_not_null_dispatch.
Qed.

(** X19. [nullable=False] holds in every state the server reaches from the
    empty table: whatever the requests, timer firings and sweeps, every
    stored note has a [title] and a [content] that are not None. *)
Theorem stored_title_content_not_null evs note_id note :
  notes (run empty_world evs) !! note_id = Some note →
  title note ≠ PNone ∧ content note ≠ PNone.
Proof.
  intros Hn.
  assert (rows_not_null (run empty_world evs)) as Hinv.
  { apply run_invariant; [apply rows_not_null_step|]. by intros k n. }
  apply Hinv in Hn. unfold nullable_ok in Hn.
  apply andb_true_iff in Hn as [Ht Hc]. by split; apply not_null_spec.
Qed.

Lemma typed_spec note :
  typed note = true ↔
  is_text (title note) = true ∧ is_text (content note) = true
  ∧ is_boolean (is_pinned note) = true ∧ is_boolean (has_reminder note) = true
  ∧ is_datetime (reminder_datetime note) = true
  ∧ is_text (reminder_email note) = true
  ∧ is_boolean (is_archived note) = true ∧ is_boolean (is_trashed note) = true.
Proof. unfold typed. rewrite !andb_true_iff. tauto. Qed.

Lemma bind_string_text n v w : bind_string n v = Some w → is_text w = true.
Proof. by intros [[_ ->]|[_ [s ->]]]%bind_string_typed. Qed.

Lemma bind_boolean_flag v w : bind_boolean v = Some w → is_boolean w = true.
Proof. by intros [[_ ->]|[_ ->]]%bind_boolean_typed. Qed.

(** A row that was flushed is typed as its columns. *)
Lemma flush_row_typed note row : flush note = inr row → typed row = true.
Proof.
  intros (Ht & Hc & Hp & Hh & Hrd & Hty & He & Ha & Htr & _)%flush_columns.
  apply typed_spec.
  repeat split; try (by eapply bind_string_text); try (by eapply bind_boolean_flag).
  rewrite Hrd. by destruct Hty as [->|[d ->]].
Qed.

Lemma rows_typed_insert W k note :
  rows_typed W → typed note = true →
  rows_typed (set_notes W (<[k := note]> (notes W))).
Proof.
  intros HW Hok k' n. simpl. destruct (decide (k = k')) as [->|Hne].
  - rewrite lookup_insert_eq. by intros [= <-].
  - rewrite lookup_insert_ne by done. apply HW.
Qed.

Lemma rows_typed_modify f note_id W :
  (∀ note, typed note = true → typed (f note) = true) →
  rows_typed W → rows_typed (settle W (modify f note_id W)).
Proof.
  intros Hf HW. unfold modify.
  destruct (notes W !! note_id) as [n|] eqn:Hn; [|done].
  simpl. apply rows_typed_insert; [done|]. apply Hf, (HW _ _ Hn).
Qed.

Lemma rows_typed_dispatch now note_id W :
  rows_typed W → rows_typed (send_reminder_email now note_id W).
Proof.
  intros HW k n.
  destruct (send_reminder_email_rows now note_id W k) as [->|(n0 & Hn0 & _ & ->)].
  - apply HW.
  - intros [= <-]. apply HW in Hn0. apply typed_spec in Hn0. apply typed_spec.
    simpl. tauto.
Qed.

Lemma rows_typed_step W ev : rows_typed W → rows_typed (step W ev).
Proof.
  intros HW. destruct ev as [now [new_id data|note_id data|note_id|note_id
    |note_id|note_id| |]]; unfold step; simpl.
  - apply settle_invariant; [done|].
    intros W' (t & c & dt & row & _ & _ & _ & Hrow & _ & ->)%create_note_done.
    intros k n. rewrite schedule_if_set_notes. revert k n.
    apply rows_typed_insert; [done|]. by eapply flush_row_typed.
  - by rewrite update_note_settle.
  - apply rows_typed_modify; [|done]. intros n. rewrite !typed_spec. simpl. tauto.
  - apply rows_typed_modify; [|done]. intros n. rewrite !typed_spec. simpl. tauto.
  - apply rows_typed_modify; [|done]. intros n. rewrite !typed_spec. simpl. tauto.
  - unfold permanent_delete_note. destruct (notes W !! note_id); [|done].
    simpl. intros k n' Hk. simpl in Hk.
    apply lookup_delete_Some in Hk as [_ Hk]. by eapply HW.
  - unfold run_pending. apply foldl_invariant; [|done].
    intros W' j. apply rows_typed_dispatch.
  - unfold check_missed_reminders. apply foldl_invariant; [|done].
    intros W' row HW'. unfold sweep_step. intros k n. simpl.
    by apply rows_typed_dispatch.
Qed.

(** X2. The column types hold in every state the server reaches from the
    empty table: whatever the requests, timer firings and sweeps, each cell
    of a stored note holds None or a value of its column's type, and
    [reminder_datetime] in particular None or a datetime, never the tuple of
    line 164. So the read handlers never fail at [isoformat]: [GET /notes]
    answers with a list, and [GET /notes/<id>] answers 200 for every stored
    note. *)
Theorem reads_always_answer evs :
  let W := run empty_world evs in
  (∀ note_id note, notes W !! note_id = Some note →
     typed note = true
     ∧ (reminder_datetime note = PNone ∨ ∃ d, reminder_datetime note = PDatetime d)
     ∧ ∃ fields, get_single_note note_id W = Ok200 fields)
  ∧ ∃ entries, get_notes W = inr entries.
Proof.
  intros W.
  assert (rows_typed W) as Hinv.
  { apply run_invariant; [apply rows_typed_step|]. by intros k n. }
  assert (Hdt : ∀ note_id note, notes W !! note_id = Some note →
            reminder_datetime note = PNone
            ∨ ∃ d, reminder_datetime note = PDatetime d).
  { intros k n Hn%Hinv. apply typed_spec in Hn as (_ & _ & _ & _ & Hrd & _).
    destruct (reminder_datetime n); try done; [by left|right; by eexists]. }
  split.
  - intros k n Hn. split; [by eapply Hinv|]. split; [by eapply Hdt|].
    unfold get_single_note. rewrite Hn.
    destruct (Hdt _ _ Hn) as [->|[d ->]]; by eexists.
  - destruct (get_notes W) as [e|entries] eqn:Hg; [|by eexists].
    apply get_notes_error in Hg as (_ & k & n & Hn & _ & _ & Htr & Hne).
    destruct (Hdt _ _ Hn) as [Hrd|[d Hrd]]; [by rewrite Hrd in Htr|].
    by destruct (Hne d).
Qed.

End Runs.

Section Invariants.
Context {rt : Runtime}.

Lemma Forall_kept {A} (P : A → Prop) (Q : A → Prop) `{∀ x, Decision (Q x)} l :
  Forall P l → Forall P (filter Q l).
Proof.
  rewrite !Forall_forall. intros HP x [_ Hin]%list_elem_of_filter. by apply HP.
Qed.

Lemma add_job_other key due payload js j :
  job_id j ≠ key → j ∈ add_job key due payload js ↔ j ∈ js.
Proof.
  intros Hk. unfold add_job, cancel.
  rewrite elem_of_app, list_elem_of_filter, list_elem_of_singleton. split.
  - intros [[_ Hin]| ->]; [done|]. by destruct Hk.
  - intros Hin. by left.
Qed.

Lemma schedule_if_set_other note_id note W j :
  job_id j ≠ job_key note_id →
  j ∈ jobs (schedule_if_set note_id note W) ↔ j ∈ jobs W.
Proof.
  intros Hk. unfold schedule_if_set. destruct (_ && _); [|done].
  destruct (reminder_datetime note); try done. simpl. by apply add_job_other.
Qed.

Lemma schedule_if_set_sends_nothing note_id note W :
  outbox (schedule_if_set note_id note W) = outbox W
  ∧ log (schedule_if_set note_id note W) = log W.
Proof.
  unfold schedule_if_set. destruct (_ && _); [|done].
  by destruct (reminder_datetime note).
Qed.

Lemma schedule_if_set_keyed note_id note W :
  Forall (λ j, job_id j = job_key (args j)) (jobs W) →
  Forall (λ j, job_id j = job_key (args j)) (jobs (schedule_if_set note_id note W)).
Proof.
  intros HW. unfold schedule_if_set. destruct (_ && _); [|done].
  destruct (reminder_datetime note); try done. simpl.
  unfold add_job. apply Forall_app. split.
  - unfold cancel. by apply Forall_kept.
  - by apply Forall_singleton.
Qed.

Lemma keyed_step W ev :
  Forall (λ j, job_id j = job_key (args j)) (jobs W) →
  Forall (λ j, job_id j = job_key (args j)) (jobs (step W ev)).
Proof.
  intros HW. destruct ev as [now [new_id data|note_id data|note_id|note_id
    |note_id|note_id| |]]; unfold step; simpl.
  - apply (settle_invariant (λ W', Forall _ (jobs W'))); [done|].
    intros W' (t & c & dt & row & _ & _ & _ & _ & _ & ->)%create_note_done.
    by apply schedule_if_set_keyed.
  - by rewrite update_note_settle.
  - unfold delete_note, modify. by destruct (notes W !! note_id).
  - unfold archive_note, modify. by destruct (notes W !! note_id).
  - unfold restore_note, modify. by destruct (notes W !! note_id).
  - unfold permanent_delete_note. by destruct (notes W !! note_id).
  - rewrite run_pending_jobs. by apply Forall_kept.
  - unfold check_missed_reminders. by rewrite sweep_jobs.
Qed.

Lemma NoDup_fmap_eq {A B} (f : A → B) (l : list A) x y :
  NoDup (f <$> l) → x ∈ l → y ∈ l → f x = f y → x = y.
Proof.
  induction l as [|a l IH]; intros Hnd Hx Hy Hf.
  - by apply elem_of_nil in Hx.
  - rewrite fmap_cons in Hnd. apply NoDup_cons in Hnd as [Hfresh Hnd].
    apply elem_of_cons in Hx as [->|Hx]; apply elem_of_cons in Hy as [->|Hy].
    + done.
    + destruct Hfresh. rewrite Hf. apply list_elem_of_fmap. by exists y.
    + destruct Hfresh. rewrite <-Hf. apply list_elem_of_fmap. by exists x.
    + by apply IH.
Qed.

(** X20. In every state the server reaches from the empty table, each
    registered timer is filed under the key 'reminder_' followed by the id
    of the note it carries as argument, and a note has at most one timer:
    two registered timers that carry the same note are the same timer. *)
Theorem timers_name_their_note evs j :
  j ∈ jobs (run empty_world evs) →
  job_id j = job_key (args j)
  ∧ ∀ j', j' ∈ jobs (run empty_world evs) → args j' = args j → j' = j.
Proof.
  assert (Forall (λ j, job_id j = job_key (args j)) (jobs (run empty_world evs)))
    as Hkeyed.
  { apply (run_invariant (λ W, Forall _ (jobs W))); [apply keyed_step|].
    apply Forall_nil_2. }
  assert (NoDup (job_id <$> jobs (run empty_world evs))) as Hnd.
  { apply (run_invariant (λ W, NoDup (job_id <$> jobs W))); [apply step_NoDup|].
    apply NoDup_nil_2. }
  rewrite Forall_forall in Hkeyed. intros Hj. split; [by apply Hkeyed|].
  intros j' Hj' Hargs. eapply NoDup_fmap_eq; [exact Hnd|done..|].
  by rewrite (Hkeyed _ Hj), (Hkeyed _ Hj'), Hargs.
Qed.

Lemma request_keeps_outbox W ev :
  is_request ev.2 = true →
  outbox (step W ev) = outbox W ∧ log (step W ev) = log W.
Proof.
  intros Hreq. destruct ev as [now [new_id data|note_id data|note_id|note_id
    |note_id|note_id| |]]; try done; unfold step; simpl.
  - destruct (create_note now new_id data W) as [W'| |e] eqn:Hc; try done.
    apply create_note_done in Hc as (t & c & dt & row & _ & _ & _ & _ & _ & ->).
    cbn [settle].
    rewrite (proj1 (schedule_if_set_sends_nothing _ _ _)),
      (proj2 (schedule_if_set_sends_nothing _ _ _)). done.
  - by rewrite update_note_settle.
  - unfold delete_note, modify. by destruct (notes W !! note_id).
  - unfold archive_note, modify. by destruct (notes W !! note_id).
  - unfold restore_note, modify. by destruct (notes W !! note_id).
  - unfold permanent_delete_note. by destruct (notes W !! note_id).
Qed.

(** X21. No request handler sends mail or writes to the log: after any of
    the six write requests the outbox and the log are as before. Mail leaves
    only when a timer fires or the start-up sweep runs. *)
Theorem requests_never_send_mail W ev :
  is_request ev.2 = true →
  outbox (step W ev) = outbox W ∧ log (step W ev) = log W.
Proof. apply request_keeps_outbox. Qed.

Lemma one_recipient_dispatch now note_id W :
  Forall one_recipient (outbox W) →
  Forall one_recipient (outbox (send_reminder_email now note_id W)).
Proof.
  intros HW.
  destruct (send_reminder_email_outbox now note_id W) as [->|(n & _ & He & ->)];
    [done|].
  apply Forall_app. split; [done|]. apply Forall_singleton.
  by exists (reminder_email n).
Qed.

Lemma one_recipient_step W ev :
  Forall one_recipient (outbox W) → Forall one_recipient (outbox (step W ev)).
Proof.
  intros HW. destruct (is_request ev.2) eqn:Hreq.
  - by rewrite (proj1 (request_keeps_outbox W ev Hreq)).
  - destruct ev as [now [| | | | | | |]]; try done; unfold step; simpl.
    + unfold run_pending.
      apply (foldl_invariant (λ W', Forall one_recipient (outbox W'))); [|done].
      intros W' j. apply one_recipient_dispatch.
    + unfold check_missed_reminders.
      apply (foldl_invariant (λ W', Forall one_recipient (outbox W'))); [|done].
      intros W' row HW'. unfold sweep_step. simpl.
      by apply one_recipient_dispatch.
Qed.

End Invariants.

Section Frames.
Context {rt : Runtime}.

(** X22. Every message the server has sent, in any state it reaches from
    the empty table, is addressed to exactly one recipient, and that
    recipient is not None and not the empty string. *)
Theorem sent_mail_has_one_recipient evs m :
  m ∈ outbox (run empty_world evs) →
  ∃ v, recipients m = [v] ∧ py_truthy v = true ∧ v ≠ PNone ∧ v ≠ PStr "".
Proof.
  intros Hm.
  assert (Forall one_recipient (outbox (run empty_world evs))) as Hall.
  { apply (run_invariant (λ W, Forall one_recipient (outbox W)));
      [apply one_recipient_step|]. apply Forall_nil_2. }
  rewrite Forall_forall in Hall. destruct (Hall m Hm) as (v & Hv & Htr).
  exists v. split; [done|]. split; [done|]. split; by intros ->.
Qed.

(** X16. A request changes no row but the one it creates or names, and
    touches no timer under another note's key. *)
Theorem request_touches_one_note W ev note_id :
  request_id ev.2 = Some note_id →
  (∀ other, other ≠ note_id → notes (step W ev) !! other = notes W !! other)
  ∧ (∀ j, job_id j ≠ job_key note_id → j ∈ jobs (step W ev) ↔ j ∈ jobs W).
Proof.
  intros Hid. destruct ev as [now [new_id data|k data|k|k|k|k| |]];
    try done; simpl in Hid; injection Hid as ->; unfold step; simpl.
  - destruct (create_note now note_id data W) as [W'| |e] eqn:Hc; try done.
    apply create_note_done in Hc as (t & c & dt & row & _ & _ & _ & _ & _ & ->).
    cbn [settle]. split.
    + intros other Hne. rewrite schedule_if_set_notes. simpl.
      by rewrite lookup_insert_ne.
    + intros j Hk. by rewrite schedule_if_set_other.
  - by rewrite update_note_settle.
  - unfold delete_note, modify. destruct (notes W !! note_id); [|done].
    simpl. split; [|done]. intros other Hne. by rewrite lookup_insert_ne.
  - unfold archive_note, modify. destruct (notes W !! note_id); [|done].
    simpl. split; [|done]. intros other Hne. by rewrite lookup_insert_ne.
  - unfold restore_note, modify. destruct (notes W !! note_id); [|done].
    simpl. split; [|done]. intros other Hne. by rewrite lookup_insert_ne.
  - unfold permanent_delete_note. destruct (notes W !! note_id); [|done].
    simpl. split; [|done]. intros other Hne. by rewrite lookup_delete_ne.
Qed.

Lemma created_at_dispatch now note_id W0 W :
  (∀ k n, notes W0 !! k = Some n →
     ∃ n', notes W !! k = Some n' ∧ created_at n' = created_at n) →
  ∀ k n, notes W0 !! k = Some n →
    ∃ n', notes (send_reminder_email now note_id W) !! k = Some n'
      ∧ created_at n' = created_at n.
Proof.
  intros HW k n Hn. destruct (HW k n Hn) as (n1 & Hn1 & Hc).
  destruct (send_reminder_email_rows now note_id W k) as [->|(n2 & Hn2 & _ & ->)].
  - by exists n1.
  - eexists. split; [done|]. simpl. congruence.
Qed.

(** X23. No handler rewrites [created_at], and neither a timer firing nor
    the sweep removes a row: across any single event, a row that is still
    there has the [created_at] it had, and after a timer firing or a sweep
    every row is still there. *)
Theorem created_at_never_changes W ev note_id note :
  notes W !! note_id = Some note →
  (∀ note', notes (step W ev) !! note_id = Some note' →
     created_at note' = created_at note)
  ∧ (is_request ev.2 = false → is_Some (notes (step W ev) !! note_id)).
Proof.
  intros Hn.
  destruct ev as [now [new_id data|k data|k|k|k|k| |]]; unfold step; simpl.
  - split; [|done].
    destruct (create_note now new_id data W) as [W'| |e] eqn:Hc;
      simpl; try (intros; congruence).
    apply create_note_done in Hc as (t & c & dt & row & _ & _ & _ & _ & Hfresh & ->).
    intros note'. rewrite schedule_if_set_notes. simpl.
    rewrite lookup_insert_ne by congruence. congruence.
  - split; [|done]. rewrite update_note_settle. intros; congruence.
  - split; [|done]. unfold delete_note, modify.
    destruct (notes W !! k) as [n|] eqn:Hk; simpl; [|intros; congruence].
    intros note'. destruct (decide (k = note_id)) as [->|Hne].
    + rewrite lookup_insert_eq. intros [= <-]. simpl. congruence.
    + rewrite lookup_insert_ne by done. congruence.
  - split; [|done]. unfold archive_note, modify.
    destruct (notes W !! k) as [n|] eqn:Hk; simpl; [|intros; congruence].
    intros note'. destruct (decide (k = note_id)) as [->|Hne].
    + rewrite lookup_insert_eq. intros [= <-]. simpl. congruence.
    + rewrite lookup_insert_ne by done. congruence.
  - split; [|done]. unfold restore_note, modify.
    destruct (notes W !! k) as [n|] eqn:Hk; simpl; [|intros; congruence].
    intros note'. destruct (decide (k = note_id)) as [->|Hne].
    + rewrite lookup_insert_eq. intros [= <-]. simpl. congruence.
    + rewrite lookup_insert_ne by done. congruence.
  - split; [|done]. unfold permanent_delete_note.
    destruct (notes W !! k) as [n|] eqn:Hk; simpl; [|intros; congruence].
    intros note' [_ Hn']%lookup_delete_Some. congruence.
  - assert (∃ n', notes (run_pending now W) !! note_id = Some n'
              ∧ created_at n' = created_at note) as (n' & Hn' & Hc).
    { revert note_id note Hn. unfold run_pending.
      apply (foldl_invariant (λ W', ∀ k n, notes W !! k = Some n →
                ∃ n', notes W' !! k = Some n' ∧ created_at n' = created_at n)).
      - intros W' j. apply created_at_dispatch.
      - intros k n Hk. by exists n. }
    split; [|by rewrite Hn']. intros note'. rewrite Hn'. congruence.
  - assert (∃ n', notes (check_missed_reminders now W) !! note_id = Some n'
              ∧ created_at n' = created_at note) as (n' & Hn' & Hc).
    { revert note_id note Hn. unfold check_missed_reminders.
      apply (foldl_invariant (λ W', ∀ k n, notes W !! k = Some n →
                ∃ n', notes W' !! k = Some n' ∧ created_at n' = created_at n)).
      - intros W' row HW' k n Hk. unfold sweep_step. simpl.
        by apply (created_at_dispatch now row.1 W W').
      - intros k n Hk. by exists n. }
    split; [|by rewrite Hn']. intros note'. rewrite Hn'. congruence.
Qed.

End Frames.

(** X24. config.py reads SQLALCHEMY_TRACK_MODIFICATIONS as text, so the
    setting cannot be switched off by giving it a value: the configured value
    is truthy exactly when the variable is set to a non-empty text, 'False'
    and '0' included; it is the Boolean False exactly when the variable is
    unset, and it is never the Boolean True. *)
Theorem config_flag_text_is_truthy (environ : gmap string string) :
  let flag := SQLALCHEMY_TRACK_MODIFICATIONS (config environ) in
  (py_truthy flag = true ↔
   ∃ text, environ !! "SQLALCHEMY_TRACK_MODIFICATIONS" = Some text ∧ text ≠ "")
  ∧ (flag = PBool false ↔ environ !! "SQLALCHEMY_TRACK_MODIFICATIONS" = None)
  ∧ flag ≠ PBool true
  ∧ (environ !! "SQLALCHEMY_TRACK_MODIFICATIONS" = Some "False" →
     flag = PStr "False" ∧ py_truthy flag = true).
Proof.
  unfold config, environ_get. simpl.
  destruct (environ !! "SQLALCHEMY_TRACK_MODIFICATIONS") as [text|]; simpl.
  - split; [|split; [done|split; [done|by intros [= ->]]]].
    rewrite negb_true_iff, String.eqb_neq. split.
    + intros Hne. by exists text.
    + by intros (? & [= <-] & Hne).
  - split; [|done]. split; [done|]. by intros (? & [=] & _).
Qed.

(** ** Instances on the sample data *)

Lemma get_notes_lists_active_witness :
  let entries := [[("id", PStr "n1");
                   ("title", PStr "Pay rent");
                   ("content", PStr "due today");
                   ("is_pinned", PBool false);
                   ("has_reminder", PBool true);
                   ("reminder_datetime", PStr "2025-01-01T09:00:00");
                   ("reminder_email", PStr "a@b.com");
                   ("created_at", PStr "2025-01-01T08:00:00");
                   ("updated_at", PStr "2025-01-01T08:00:00.000001");
                   ("is_archived", PBool false);
                   ("is_trashed", PBool false)]] in
  get_notes (rt:=Sample.smtp_up) Sample.rent_world = inr entries
  ∧ NoDup (ids entries)
  ∧ ∀ note_id,
      PStr note_id ∈ ids entries ↔
      ∃ note, notes Sample.rent_world !! note_id = Some note
        ∧ col_is false (is_archived note) = true
        ∧ col_is false (is_trashed note) = true.
Proof.
  intros entries. split; [vm_compute; reflexivity|].
  apply (get_notes_lists_active (rt:=Sample.smtp_up) Sample.rent_world entries).
  vm_compute; reflexivity.
Defined.

Lemma null_flag_hides_note_witness :
  get_single_note (rt:=Sample.smtp_up) "n3" Sample.nulled_world ≠ Err404
  ∧ (PStr "n3" ∉ ids (get_archived_notes Sample.nulled_world))
  ∧ (PStr "n3" ∉ ids (get_trashed_notes Sample.nulled_world))
  ∧ (PStr "n3" ∉ ids (get_reminders Sample.nulled_world))
  ∧ ∀ entries, get_notes (rt:=Sample.smtp_up) Sample.nulled_world = inr entries →
      PStr "n3" ∉ ids entries.
Proof.
  apply (null_flag_hides_note (rt:=Sample.smtp_up) Sample.nulled_world "n3"
           Sample.nulled_note); reflexivity.
Defined.

Lemma delete_note_moves_to_trash_witness :
  ∃ W', delete_note Sample.at_0900 "n1" Sample.rent_world = Done W'
    ∧ PStr "n1" ∈ ids (get_trashed_notes W')
    ∧ (PStr "n1" ∉ ids (get_archived_notes W'))
    ∧ (PStr "n1" ∉ ids (get_reminders W'))
    ∧ (∀ entries, get_notes (rt:=Sample.smtp_up) W' = inr entries →
         PStr "n1" ∉ ids entries)
    ∧ (∀ other, other ≠ "n1" →
         notes W' !! other = notes Sample.rent_world !! other).
Proof.
  apply (delete_note_moves_to_trash (rt:=Sample.smtp_up) Sample.at_0900 "n1"
           Sample.rent_world Sample.rent_note). reflexivity.
Defined.

Lemma archive_note_moves_to_archive_witness :
  ∃ W', archive_note Sample.at_0900 "n1" Sample.rent_world = Done W'
    ∧ PStr "n1" ∈ ids (get_archived_notes W')
    ∧ (PStr "n1" ∉ ids (get_trashed_notes W'))
    ∧ (PStr "n1" ∉ ids (get_reminders W'))
    ∧ (∀ entries, get_notes (rt:=Sample.smtp_up) W' = inr entries →
         PStr "n1" ∉ ids entries)
    ∧ (∀ other, other ≠ "n1" →
         notes W' !! other = notes Sample.rent_world !! other).
Proof.
  apply (archive_note_moves_to_archive (rt:=Sample.smtp_up) Sample.at_0900 "n1"
           Sample.rent_world Sample.rent_note). reflexivity.
Defined.

Lemma restore_note_returns_to_notes_witness :
  ∃ W', restore_note Sample.at_0900 "n1" Sample.rent_world = Done W'
    ∧ (PStr "n1" ∉ ids (get_trashed_notes W'))
    ∧ (PStr "n1" ∉ ids (get_archived_notes W'))
    ∧ (∀ entries, get_notes (rt:=Sample.smtp_up) W' = inr entries →
         PStr "n1" ∈ ids entries)
    ∧ (PStr "n1" ∈ ids (get_reminders W') ↔
       col_is true (has_reminder Sample.rent_note) = true)
    ∧ (∀ other, other ≠ "n1" →
         notes W' !! other = notes Sample.rent_world !! other).
Proof.
  apply (restore_note_returns_to_notes (rt:=Sample.smtp_up) Sample.at_0900 "n1"
           Sample.rent_world Sample.rent_note). reflexivity.
Defined.

Lemma restore_after_trash_drops_pin_witness :
  let W1 := settle Sample.rent_world
              (delete_note Sample.at_0900 "n1" Sample.rent_world) in
  ∃ W2, restore_note Sample.next_0900 "n1" W1 = Done W2
    ∧ notes W2 !! "n1"
      = Some {| title := PStr "Pay rent";
                content := PStr "due today";
                is_pinned := PBool false;
                has_reminder := PBool true;
                reminder_datetime := PDatetime Sample.at_0900;
                reminder_email := PStr "a@b.com";
                created_at := Sample.at_0800;
                updated_at := Sample.next_0900;
                is_archived := PBool false;
                is_trashed := PBool false |}.
Proof.
  intros W1.
  apply (restore_after_trash_drops_pin Sample.at_0900 Sample.next_0900 "n1"
           Sample.rent_world W1 Sample.rent_note); [reflexivity|].
  left. reflexivity.
Defined.

Lemma permanent_delete_then_404_witness :
  ∃ W', permanent_delete_note "n1" Sample.rent_world = Done W'
    ∧ get_single_note (rt:=Sample.smtp_up) "n1" W' = Err404
    ∧ (∀ now data, update_note (rt:=Sample.smtp_up) now "n1" data W' = NotFound)
    ∧ (∀ now, delete_note now "n1" W' = NotFound
              ∧ archive_note now "n1" W' = NotFound
              ∧ restore_note now "n1" W' = NotFound)
    ∧ permanent_delete_note "n1" W' = NotFound
    ∧ jobs W' = jobs Sample.rent_world
    ∧ (∀ other, other ≠ "n1" →
         notes W' !! other = notes Sample.rent_world !! other)
    ∧ (∀ later, send_reminder_email (rt:=Sample.smtp_up) later "n1" W'
                = logger (invalid_note_warning "n1") W').
Proof.
  apply (permanent_delete_then_404 (rt:=Sample.smtp_up) "n1" Sample.rent_world
           Sample.rent_note). reflexivity.
Defined.

Lemma create_then_get_witness :
  (∃ fields, get_single_note (rt:=Sample.smtp_up) "n1" Sample.rent_world
             = Ok200 fields
     ∧ field "id" fields = Some (PStr "n1")
     ∧ field "created_at" fields
       = Some (PStr (isoformat (Runtime:=Sample.smtp_up) Sample.at_0800))
     ∧ field "updated_at" fields
       = Some (PStr (isoformat (Runtime:=Sample.smtp_up)
                       (tick (Runtime:=Sample.smtp_up) Sample.at_0800)))
     ∧ (∀ s, Sample.rent !! "title" = Some (PStr s) → (String.length s ≤ 100)%nat →
          field "title" fields = Some (PStr s))
     ∧ (∀ s, Sample.rent !! "content" = Some (PStr s) →
          field "content" fields = Some (PStr s))
     ∧ (Sample.rent !! "has_reminder" = None
        ∨ Sample.rent !! "has_reminder" = Some PNone →
          field "has_reminder" fields = Some (PBool false))
     ∧ (∀ b, Sample.rent !! "has_reminder" = Some (PBool b) →
          field "has_reminder" fields = Some (PBool b)))
  ∧ ∀ other, other ≠ "n1" →
      get_single_note (rt:=Sample.smtp_up) other Sample.rent_world
      = get_single_note (rt:=Sample.smtp_up) other empty_world.
Proof.
  apply (create_then_get (rt:=Sample.smtp_up) Sample.at_0800 "n1" Sample.rent
           empty_world Sample.rent_world).
  vm_compute; reflexivity.
Defined.

Lemma create_without_flag_never_schedules_witness :
  let W' := settle empty_world
              (create_note (rt:=Sample.smtp_up) Sample.at_0800 "n1"
                 Sample.unflagged empty_world) in
  Sample.unflagged !! "reminder_datetime" = Some (PStr "2025-01-01T09:00:00")
  ∧ Sample.unflagged !! "reminder_email" = Some (PStr "a@b.com")
  ∧ jobs W' = jobs empty_world
  ∧ (has_reminder <$> notes W' !! "n1") = Some (PBool false)
  ∧ ∀ later, outbox (send_reminder_email (rt:=Sample.smtp_up) later "n1" W')
             = outbox W'.
Proof.
  intros W'. split; [vm_compute; reflexivity|]. split; [vm_compute; reflexivity|].
  apply (create_without_flag_never_schedules (rt:=Sample.smtp_up) Sample.at_0800
           "n1" Sample.unflagged empty_world W'); vm_compute; reflexivity.
Defined.

Lemma create_schedules_at_parsed_time_witness :
  ∃ d, fromisoformat (Runtime:=Sample.smtp_up) "2025-01-01T09:00:00" = Some d
    ∧ (reminder_datetime <$> notes Sample.rent_world !! "n1") = Some (PDatetime d)
    ∧ mkJob (job_key "n1") d "n1" ∈ jobs Sample.rent_world
    ∧ (∀ j, j ∈ jobs Sample.rent_world → job_id j = job_key "n1" →
         j = mkJob (job_key "n1") d "n1")
    ∧ (∀ j, job_id j ≠ job_key "n1" →
         j ∈ jobs Sample.rent_world ↔ j ∈ jobs empty_world).
Proof.
  apply (create_schedules_at_parsed_time (rt:=Sample.smtp_up) Sample.at_0800 "n1"
           Sample.rent empty_world Sample.rent_world "2025-01-01T09:00:00");
    [vm_compute; reflexivity|vm_compute; reflexivity|discriminate
    |vm_compute; reflexivity].
Defined.

Lemma request_touches_one_note_witness :
  let ev := (Sample.at_0900, DELETE_note "n1") in
  (∀ other, other ≠ "n1" →
     notes (step (rt:=Sample.smtp_up) Sample.restart_world ev) !! other
     = notes Sample.restart_world !! other)
  ∧ (∀ j, job_id j ≠ job_key "n1" →
       j ∈ jobs (step (rt:=Sample.smtp_up) Sample.restart_world ev)
       ↔ j ∈ jobs Sample.restart_world).
Proof.
  intros ev.
  apply (request_touches_one_note (rt:=Sample.smtp_up) Sample.restart_world ev "n1").
  reflexivity.
Defined.

Lemma dispatch_twice_sends_once_witness :
  let W1 := send_reminder_email (rt:=Sample.smtp_up) Sample.at_0900 "n1"
              Sample.rent_world in
  outbox W1 = outbox Sample.rent_world
              ++ [reminder_message (rt:=Sample.smtp_up) Sample.rent_note]
  ∧ outbox (send_reminder_email (rt:=Sample.smtp_up) Sample.next_0900 "n1" W1)
    = outbox W1
  ∧ notes (send_reminder_email (rt:=Sample.smtp_up) Sample.next_0900 "n1" W1)
    = notes W1.
Proof.
  apply (dispatch_twice_sends_once (rt:=Sample.smtp_up) Sample.at_0900
           Sample.next_0900 "n1" Sample.rent_world Sample.rent_note);
    reflexivity.
Defined.

Lemma swept_reminder_not_selected_again_witness :
  (query_all (missed Sample.at_0900) Sample.restart_world).*1 = ["n1"]
  ∧ ∀ note', ("n1", note') ∉
      query_all (missed Sample.next_0900)
        (check_missed_reminders (rt:=Sample.smtp_up) Sample.at_0900
           Sample.restart_world).
Proof.
  split; [vm_compute; reflexivity|].
  apply (swept_reminder_not_selected_again (rt:=Sample.smtp_up) Sample.at_0900
           Sample.next_0900 "n1" Sample.restart_world
           (Sample.overdue (Sample.minutes 120))); [|reflexivity..].
  apply query_all_spec. split; vm_compute; reflexivity.
Defined.

Lemma stored_title_content_not_null_witness :
  notes (run (rt:=Sample.smtp_up) empty_world Sample.two_updates) !! "n1"
  = Some Sample.plain_note
  ∧ title Sample.plain_note ≠ PNone
  ∧ content Sample.plain_note ≠ PNone.
Proof.
  split; [vm_compute; reflexivity|].
  apply (stored_title_content_not_null (rt:=Sample.smtp_up) Sample.two_updates
           "n1" Sample.plain_note).
  vm_compute; reflexivity.
Defined.

Lemma timers_name_their_note_witness :
  let evs := [(Sample.at_0800, POST_notes "n1" Sample.rent)] in
  let j := mkJob "reminder_n1" Sample.at_0900 "n1" in
  jobs (run (rt:=Sample.smtp_up) empty_world evs) = [j]
  ∧ job_id j = job_key (args j)
  ∧ ∀ j', j' ∈ jobs (run (rt:=Sample.smtp_up) empty_world evs) →
      args j' = args j → j' = j.
Proof.
  intros evs j. split; [vm_compute; reflexivity|].
  apply (timers_name_their_note (rt:=Sample.smtp_up) evs j).
  vm_compute. left.
Defined.

Lemma requests_never_send_mail_witness :
  let ev := (Sample.at_0900, PUT_note "n1" Sample.retitle) in
  outbox (step (rt:=Sample.smtp_up) Sample.rent_world ev) = outbox Sample.rent_world
  ∧ log (step (rt:=Sample.smtp_up) Sample.rent_world ev) = log Sample.rent_world.
Proof.
  intros ev.
  apply (requests_never_send_mail (rt:=Sample.smtp_up) Sample.rent_world ev).
  reflexivity.
Defined.

Lemma sent_mail_has_one_recipient_witness :
  outbox (run (rt:=Sample.smtp_up) empty_world Sample.rent_fires)
  = [Sample.rent_message]
  ∧ ∃ v, recipients Sample.rent_message = [v] ∧ py_truthy v = true
      ∧ v ≠ PNone ∧ v ≠ PStr "".
Proof.
  split; [vm_compute; reflexivity|].
  apply (sent_mail_has_one_recipient (rt:=Sample.smtp_up) Sample.rent_fires
           Sample.rent_message).
  vm_compute. left.
Defined.

Lemma created_at_never_changes_witness :
  let ev := (Sample.at_0900, Timer) in
  (∀ note', notes (step (rt:=Sample.smtp_up) Sample.rent_world ev) !! "n1"
            = Some note' →
     created_at note' = created_at Sample.rent_note)
  ∧ (is_request ev.2 = false →
     is_Some (notes (step (rt:=Sample.smtp_up) Sample.rent_world ev) !! "n1")).
Proof.
  intros ev.
  apply (created_at_never_changes (rt:=Sample.smtp_up) Sample.rent_world ev "n1"
           Sample.rent_note).
  reflexivity.
Defined.
